(** * Compliance scorer: [generate_compliance_report] of src/app.py

    A shallow embedding of the scoring and gap-analysis routine
    (app.py, lines 168-550) and the properties its specification states.

    Conventions of the embedding.
    - Python numbers are exact: an [int] is a [Z], a [float] is a rational
      [Q].  The constants of the routine (0.5, 0.25, 0.6, 0.4, 2.5, 1.5)
      are written as fractions.  [round(x, n)] and the [:.nf] format round
      to nearest, ties to even, as CPython does on the exact value.
      Non-finite floats and integers too large for a float are outside
      the model.
    - A record read with [.get] is a Rocq record; the fields whose dynamic
      type the routine inspects ([selected_maturity_level], the three
      entries of [calculated_score], the [level] of a maturity level) are
      Python values ([pyval]).
    - The loop over the records is explicit state passing: [scorer_state]
      holds the eight accumulators, [scorer_step] is one iteration.

    Beside the routine the development covers its callers and the code
    that feeds it: the selection loop of [save_selections]
    (app.py:1252-1292), the helpers that name and find the saved files
    (app.py:31-165) and [generate_compliance_report_route]
    (app.py:1146-1228).  Library functions of Python that they call
    ([float] and [int] on strings, [os.path.splitext], [str.upper],
    [re.search], [os.path.join]) and the reading of files are parameters of
    the section. *)

From Stdlib Require Import ZArith QArith Qround Qminmax Lqa Lia.
From Stdlib Require Import List String Ascii Bool Permutation.
From Stdlib Require Import DecimalString.
Import ListNotations.

Local Open Scope Z_scope.
Local Open Scope Q_scope.
Local Open Scope string_scope.

(** ** Python values *)

(** The values [json.load] produces, as far as the routine tells them
    apart.  A list or a dict only matters through its truth value. *)
Inductive pyval : Type :=
| PyNone
| PyBool (b : bool)
| PyInt (z : Z)
| PyFloat (q : Q)
| PyStr (s : string)
| PyContainer (nonempty : bool).

(** [bool(v)] *)
Definition py_truthy (v : pyval) : bool :=
  match v with
  | PyNone => false
  | PyBool b => b
  | PyInt z => negb (z =? 0)%Z
  | PyFloat q => negb (Qeq_bool q 0)
  | PyStr s => negb (String.eqb s "")
  | PyContainer ne => ne
  end.

(** [isinstance(v, (int, float))]; [bool] is a subclass of [int]. *)
Definition py_is_number (v : pyval) : bool :=
  match v with
  | PyBool _ | PyInt _ | PyFloat _ => true
  | _ => false
  end.

(** [int(x)] on a float truncates toward zero. *)
Definition Qtrunc (q : Q) : Z := Z.quot (Qnum q) (Zpos (Qden q)).

(** [v == n] for an integer [n]. *)
Definition py_eq_int (v : pyval) (n : Z) : bool :=
  match v with
  | PyBool b => ((if b then 1 else 0) =? n)%Z
  | PyInt z => (z =? n)%Z
  | PyFloat q => Qeq_bool q (inject_Z n)
  | _ => false
  end.

(** ** Comparisons and rounding on exact numbers *)

Definition Qlt_bool (x y : Q) : bool := negb (Qle_bool y x).
Definition Qge_bool (x y : Q) : bool := Qle_bool y x.
Definition Qgt_bool (x y : Q) : bool := Qlt_bool y x.

(** Python's [max(a, b)]: the first argument unless the second is larger. *)
Definition py_max (a b : Q) : Q := if Qlt_bool a b then b else a.

(** Nearest integer, ties to even. *)
Definition round_half_even (x : Q) : Z :=
  let f := Qfloor x in
  let r := x - inject_Z f in
  match Qcompare r (1 # 2) with
  | Lt => f
  | Gt => (f + 1)%Z
  | Eq => if Z.even f then f else (f + 1)%Z
  end.

Definition pow10 (n : nat) : Z := (10 ^ Z.of_nat n)%Z.

(** [round(x, n)] on a float. *)
Definition py_round (x : Q) (n : nat) : Q :=
  Qmake (round_half_even (x * inject_Z (pow10 n))) (Z.to_pos (pow10 n)).

(** ** Strings *)

(** [str(n)] for an integer. *)
Definition str_of_Z (z : Z) : string := NilZero.string_of_int (Z.to_int z).

Fixpoint pad_zeros (width : nat) (s : string) : string :=
  match width with
  | O => s
  | S w => if (String.length s <=? w)%nat then pad_zeros w ("0" ++ s) else s
  end.

(** [format(x, ".nf")]: the value rounded to [n] decimals, in fixed notation.
    A negative value that rounds to zero keeps its sign, as in CPython. *)
Definition format_fixed (n : nat) (x : Q) : string :=
  let m := Z.abs (round_half_even (x * inject_Z (pow10 n))) in
  let ip := (m / pow10 n)%Z in
  let fp := (m mod pow10 n)%Z in
  (if Qlt_bool x 0 then "-" else "") ++ str_of_Z ip ++
  match n with
  | O => ""
  | S _ => "." ++ pad_zeros n (str_of_Z fp)
  end.

(** [sep.join(l)] *)
Definition join (sep : string) (l : list string) : string := String.concat sep l.

(** [' ' in s] *)
Fixpoint has_space (s : string) : bool :=
  match s with
  | EmptyString => false
  | String c r => if Ascii.eqb c " "%char then true else has_space r
  end.

(** [s.split(' ')[0]] *)
Fixpoint before_space (s : string) : string :=
  match s with
  | EmptyString => EmptyString
  | String c r => if Ascii.eqb c " "%char then EmptyString else String c (before_space r)
  end.

(** [s.split(' ', 1)[1]], for a string that has a space. *)
Fixpoint after_space (s : string) : string :=
  match s with
  | EmptyString => EmptyString
  | String c r => if Ascii.eqb c " "%char then r else after_space r
  end.

(** [sub in s] *)
Fixpoint contains (sub s : string) : bool :=
  if String.prefix sub s then true
  else match s with
       | EmptyString => false
       | String _ r => contains sub r
       end.

(** The bullet of the action items, U+2022 in UTF-8. *)
Definition bullet : string :=
  String (ascii_of_nat 226) (String (ascii_of_nat 128) (String (ascii_of_nat 162) EmptyString)).

(** ** Data model *)

(** A practice of a maturity level: [{"text": ..., "score": ...}]. *)
Record practice : Type := {
  text : string;
  score : Q
}.

(** An entry of [maturity_levels]. *)
Record maturity_level : Type := {
  level : pyval;
  description : string;
  practices : list practice
}.

(** The dict stored under [calculated_score]; [None] is an absent key. *)
Record score_dict : Type := {
  sc_percentage : option pyval;
  sc_total : option pyval;
  sc_max : option pyval
}.

(** One assessment record.  [selected_maturity_level] is [PyNone] when the
    key is absent or null; [calculated_score] is [None] when the key is
    absent or its value is not a dict (app.py:198-200). *)
Record assessment : Type := {
  clause : string;
  selected_maturity_level : pyval;
  calculated_score : option score_dict;
  maturity_levels : list maturity_level
}.

(** An entry of [user_selection]. *)
Record selection_item : Type := {
  us_title : string;
  us_content : string;
  us_level : option Z;
  us_percentage : option Q
}.

(** A step of the per-record [roadmap_to_level_4]. *)
Record roadmap_step : Type := {
  rs_step : Z;
  rs_target_level : Z;
  rs_title : string;
  rs_description : string;
  rs_practices : list string;
  rs_what_to_do : string
}.

(** [gap_details].  The last four keys are read by the recommendation loop
    (app.py:428-445) and set nowhere in the routine: [None] is an absent
    key. *)
Record gap_details : Type := {
  user_selection : list selection_item;
  missing_at_current_level : list string;
  roadmap_to_level_4 : list roadmap_step;
  current_level_description : string;
  level_2_description : string;
  level_3_description : string;
  level_4_description : string;
  required_actions : option (list string);
  practices_to_implement : option (list string);
  target_level_description : option string;
  missing_elements : option (list string)
}.

(** [gap_info], the entry of [assessed_clauses] and of the three buckets. *)
Record gap_info : Type := {
  gi_clause : string;
  gi_clause_name : string;
  gi_current_level : Q;
  gi_selected_level : Z;
  gi_target_level : Z;
  gi_gap_description : string;
  gi_score_percentage : Q;
  gi_total_score : Q;
  gi_max_score : Q;
  gi_impact : string;
  gi_priority : string;
  gi_gap_details : gap_details
}.

(** An entry of [recommendations]. *)
Record recommendation : Type := {
  rec_clause : string;
  rec_clause_name : string;
  rec_current_level : Q;
  rec_selected_level : Q;
  rec_target_level : Z;
  rec_action_items : list string;
  rec_timeline : string;
  rec_missing_elements : list string;
  rec_practices_to_implement : list string;
  rec_resources_required : string
}.

(** A phase of the report-level roadmap. *)
Record phase : Type := {
  ph_title : string;
  ph_duration : string;
  ph_clauses : list string;
  ph_key_actions : list string
}.

Record roadmap : Type := {
  phase_1 : phase;
  phase_2 : phase;
  phase_3 : phase
}.

Record priority_matrix : Type := {
  quick_wins : list string;
  strategic_initiatives : list string;
  foundational_requirements : list string
}.

Record gap_analysis : Type := {
  ga_critical_gaps : list gap_info;
  ga_moderate_gaps : list gap_info;
  ga_minor_gaps : list gap_info
}.

(** The report. *)
Record report : Type := {
  executive_summary : string;
  overall_maturity_score : string;
  overall_maturity_numeric : Q;
  overall_percentage_score : Q;
  total_clauses : Z;
  rp_assessed_clauses : list gap_info;
  rp_gap_analysis : gap_analysis;
  recommendations : list recommendation;
  rp_roadmap_to_level_4 : roadmap;
  rp_priority_matrix : priority_matrix
}.

(** The accumulators of the loop over the records (app.py:174-181). *)
Record scorer_state : Type := {
  total_weighted_score : Q;
  total_max_score : Q;
  total_level_score : Q;
  clause_count : Z;
  critical_gaps : list gap_info;
  moderate_gaps : list gap_info;
  minor_gaps : list gap_info;
  assessed_clauses : list gap_info
}.

(** The three buckets of the gap analysis. *)
Inductive bucket : Type := Critical | Moderate | Minor.

(** A parser for the sample records, which hold no string: it rejects
    every string. *)
Definition reject_strings : string -> option Q := fun _ => None.

(** ** The routine *)

Section Scorer.

(** [float(s)] on a string is Python's own parser: its result, or [None]
    where it raises [ValueError]. *)
Variable float_of_str : string -> option Q.

(** [float(v)]; [None] stands for [ValueError] or [TypeError]. *)
Definition py_float (v : pyval) : option Q :=
  match v with
  | PyNone => None
  | PyBool b => Some (if b then 1 else 0)
  | PyInt z => Some (inject_Z z)
  | PyFloat q => Some q
  | PyStr s => float_of_str s
  | PyContainer _ => None
  end.

(** [int(v)] for a number. *)
Definition py_int (v : pyval) : Z :=
  match v with
  | PyBool b => if b then 1 else 0
  | PyInt z => z
  | PyFloat q => Qtrunc q
  | _ => 0
  end.

(** [d.get(k, 0) or 0] (app.py:202-204) *)
Definition get_or_zero (v : option pyval) : pyval :=
  match v with
  | Some x => if py_truthy x then x else PyInt 0
  | None => PyInt 0
  end.

(** [float(x) if x is not None else 0.0] (app.py:208-210) *)
Definition float_or_zero (v : pyval) : option Q :=
  match v with
  | PyNone => Some 0
  | _ => py_float v
  end.

Definition empty_score : score_dict :=
  {| sc_percentage := None; sc_total := None; sc_max := None |}.

(** The three numbers read from [calculated_score] (app.py:198-214):
    when one conversion raises, the handler resets all three to 0.0. *)
Definition scores (a : assessment) : Q * Q * Q :=
  let d := match calculated_score a with Some d => d | None => empty_score end in
  match float_or_zero (get_or_zero (sc_percentage d)),
        float_or_zero (get_or_zero (sc_total d)),
        float_or_zero (get_or_zero (sc_max d)) with
  | Some p, Some t, Some m => (p, t, m)
  | _, _, _ => (0, 0, 0)
  end.

Definition score_percentage (a : assessment) : Q := fst (fst (scores a)).
Definition total_score (a : assessment) : Q := snd (fst (scores a)).
Definition max_score (a : assessment) : Q := snd (scores a).

Definition clause_name (a : assessment) : string :=
  if has_space (clause a) then after_space (clause a) else clause a.

Definition clause_num (a : assessment) : string :=
  if has_space (clause a) then before_space (clause a) else clause a.

(** app.py:189-193 *)
Definition current_level (a : assessment) : Z :=
  match selected_maturity_level a with
  | PyNone => 1
  | v => if py_is_number v then py_int v else 1
  end.

Definition target_level : Z := 4.

(** app.py:218-224 *)
Definition effective_level (a : assessment) : Q :=
  if (1 <? current_level a)%Z && Qlt_bool (score_percentage a) 50 then
    py_max 1 (inject_Z (current_level a) - (1 # 2))
  else if (1 <? current_level a)%Z && Qlt_bool (score_percentage a) 75 then
    inject_Z (current_level a) - (1 # 4)
  else
    inject_Z (current_level a).

(** app.py:235 *)
Definition gap (a : assessment) : Q := inject_Z target_level - effective_level a.

(** The loop of app.py:244-253 keeps, for each level looked for, the last
    entry whose [level] equals it. *)
Definition level_data (n : Z) (mls : list maturity_level) : option maturity_level :=
  fold_left (fun acc ml => if py_eq_int (level ml) n then Some ml else acc) mls None.

Definition current_level_data (a : assessment) : option maturity_level :=
  level_data (current_level a) (maturity_levels a).
Definition level_2_data (a : assessment) : option maturity_level :=
  level_data 2 (maturity_levels a).
Definition level_3_data (a : assessment) : option maturity_level :=
  level_data 3 (maturity_levels a).
Definition level_4_data (a : assessment) : option maturity_level :=
  level_data 4 (maturity_levels a).

(** [d.get('description', '') if d else ''] *)
Definition description_of (d : option maturity_level) : string :=
  match d with
  | Some ml => description ml
  | None => ""
  end.

(** app.py:256 *)
Definition level_selected (a : assessment) : bool :=
  match selected_maturity_level a with
  | PyNone => false
  | _ => true
  end.

(** app.py:265-290 *)
Definition user_selection_summary (a : assessment) : list selection_item :=
  [ if negb (level_selected a) then
      {| us_title := "Your Selection";
         us_content := "No maturity level has been selected. Default status: Level 1.";
         us_level := Some 1%Z;
         us_percentage := None |}
    else
      {| us_title := "Your Selection";
         us_content := "You selected Level " ++ str_of_Z (current_level a) ++ ". "
                       ++ description_of (current_level_data a);
         us_level := Some (current_level a);
         us_percentage := None |};
    if Qgt_bool (max_score a) 0 && Qgt_bool (score_percentage a) 0 then
      {| us_title := "Practice Completion";
         us_content := "You have completed " ++ format_fixed 1 (score_percentage a)
                       ++ "% of practices (" ++ format_fixed 2 (total_score a)
                       ++ " out of " ++ format_fixed 2 (max_score a) ++ " points).";
         us_level := None;
         us_percentage := Some (score_percentage a) |}
    else
      {| us_title := "Practice Completion";
         us_content := "Practices have not been assessed or completed yet.";
         us_level := None;
         us_percentage := Some 0 |} ].

(** app.py:293-298 *)
Definition missing_at_current_level_of (a : assessment) : list string :=
  match current_level_data a with
  | Some d =>
      match practices d with
      | _ :: _ =>
          if Qlt_bool (score_percentage a) 100 then
            [ "Complete remaining practices for Level " ++ str_of_Z (current_level a);
              "Ensure all Level " ++ str_of_Z (current_level a) ++ " practices are implemented" ]
          else []
      | [] => []
      end
  | None => []
  end.

(** One roadmap step (the dict literal of app.py:302-309, 312-319, 322-329). *)
Definition mk_step (n : Z) (target : Z) (caption : string) (d : maturity_level) : roadmap_step :=
  {| rs_step := n;
     rs_target_level := target;
     rs_title := "Step " ++ str_of_Z n ++ ": " ++ caption;
     rs_description := description d;
     rs_practices := map text (firstn 4 (practices d));
     rs_what_to_do := "Implement Level " ++ str_of_Z target ++ " practices: "
                   ++ join ", " (map text (firstn 3 (practices d))) |}.

(** app.py:301-329: the three gates test [current_level], the selected level. *)
Definition roadmap_to_level_4_of (a : assessment) : list roadmap_step :=
  let cl := current_level a in
  (match level_2_data a with
   | Some d => if (cl <? 2)%Z then [mk_step 1 2 "Advance to Level 2" d] else []
   | None => []
   end)
  ++
  (match level_3_data a with
   | Some d =>
       if (cl <? 3)%Z
       then [mk_step (if (cl <? 2)%Z then 2 else 1) 3 "Advance to Level 3" d]
       else []
   | None => []
   end)
  ++
  (match level_4_data a with
   | Some d =>
       if (cl <? 4)%Z
       then [mk_step (if (cl <? 3)%Z then 3 else if (cl <? 2)%Z then 2 else 1) 4
                     "Reach Level 4 (Target)" d]
       else []
   | None => []
   end).

(** app.py:332-348 *)
Definition gap_description (a : assessment) : string :=
  join " "
    ((if level_selected a then
        ("You selected Level " ++ str_of_Z (current_level a) ++ ".")
        :: match current_level_data a with
           | Some d => ["Current state: " ++ description d]
           | None => []
           end
      else ["No maturity level selected. Default: Level 1."])
     ++
     [ if Qgt_bool (max_score a) 0 then
         if Qeq_bool (score_percentage a) 0 then "No practices completed."
         else "Practice completion: " ++ format_fixed 1 (score_percentage a) ++ "%."
       else "Practices not assessed." ]).

(** app.py:354-362 *)
Definition gap_details_of (a : assessment) : gap_details :=
  {| user_selection := user_selection_summary a;
     missing_at_current_level := missing_at_current_level_of a;
     roadmap_to_level_4 := roadmap_to_level_4_of a;
     current_level_description := description_of (current_level_data a);
     level_2_description := description_of (level_2_data a);
     level_3_description := description_of (level_3_data a);
     level_4_description := description_of (level_4_data a);
     required_actions := None;
     practices_to_implement := None;
     target_level_description := None;
     missing_elements := None |}.

(** app.py:374 *)
Definition impact_of (g : Q) : string :=
  if Qge_bool g (5 # 2) then "High"
  else if Qge_bool g (3 # 2) then "Medium"
  else "Low".

(** app.py:375 *)
Definition priority_of (g : Q) : string :=
  if Qge_bool g (5 # 2) then "Critical"
  else if Qge_bool g (3 # 2) then "High"
  else if Qge_bool g (1 # 2) then "Medium"
  else "Low".

(** app.py:364-377 *)
Definition gap_info_of (a : assessment) : gap_info :=
  {| gi_clause := clause_num a;
     gi_clause_name := clause_name a;
     gi_current_level := py_round (effective_level a) 1;
     gi_selected_level := current_level a;
     gi_target_level := target_level;
     gi_gap_description := gap_description a;
     gi_score_percentage := py_round (score_percentage a) 1;
     gi_total_score := py_round (total_score a) 2;
     gi_max_score := py_round (max_score a) 2;
     gi_impact := impact_of (gap a);
     gi_priority := priority_of (gap a);
     gi_gap_details := gap_details_of a |}.

(** app.py:381-386: the bucket a record's [gap_info] is appended to. *)
Definition bucket_of (a : assessment) : bucket :=
  if Qge_bool (gap a) (5 # 2) then Critical
  else if Qge_bool (gap a) (3 # 2) then Moderate
  else Minor.

Definition initial_state : scorer_state :=
  {| total_weighted_score := 0;
     total_max_score := 0;
     total_level_score := 0;
     clause_count := 0;
     critical_gaps := [];
     moderate_gaps := [];
     minor_gaps := [];
     assessed_clauses := [] |}.

(** One iteration of the loop over the records (app.py:183-386). *)
Definition scorer_step (st : scorer_state) (a : assessment) : scorer_state :=
  let counted := Qgt_bool (max_score a) 0 in
  let info := gap_info_of a in
  {| total_weighted_score :=
       if counted then total_weighted_score st + total_score a else total_weighted_score st;
     total_max_score :=
       if counted then total_max_score st + max_score a else total_max_score st;
     total_level_score := total_level_score st + effective_level a;
     clause_count := (clause_count st + 1)%Z;
     critical_gaps :=
       match bucket_of a with Critical => critical_gaps st ++ [info] | _ => critical_gaps st end;
     moderate_gaps :=
       match bucket_of a with Moderate => moderate_gaps st ++ [info] | _ => moderate_gaps st end;
     minor_gaps :=
       match bucket_of a with Minor => minor_gaps st ++ [info] | _ => minor_gaps st end;
     assessed_clauses := assessed_clauses st ++ [info] |}.

Definition scorer_loop (assessments : list assessment) : scorer_state :=
  fold_left scorer_step assessments initial_state.

(** app.py:389-401.  The [else] branch holds the defaults for a run that
    counted no clause. *)
Definition avg_level (st : scorer_state) : Q :=
  total_level_score st / inject_Z (clause_count st).

Definition overall_percentage (st : scorer_state) : Q :=
  if Qgt_bool (total_max_score st) 0
  then total_weighted_score st / total_max_score st * 100
  else 0.

Definition combined_score (st : scorer_state) : Q :=
  (avg_level st / 4 * 100 * (3 # 5)) + (overall_percentage st * (2 # 5)).

Definition overall_maturity (st : scorer_state) : string :=
  if (0 <? clause_count st)%Z
  then "Level " ++ format_fixed 1 (avg_level st)
  else "Level 1.0".

Definition overall_maturity_numeric_of (st : scorer_state) : Q :=
  if (0 <? clause_count st)%Z then avg_level st else 1.

Definition overall_percentage_score_of (st : scorer_state) : Q :=
  if (0 <? clause_count st)%Z then py_round (combined_score st) 1 else 0.

(** app.py:457-462 *)
Definition timeline_of (gap_size : Q) : string :=
  if Qge_bool gap_size (5 # 2) then "6-12 months"
  else if Qge_bool gap_size (3 # 2) then "3-6 months"
  else "1-3 months".

(** A list read with [.get] that is truthy. *)
Definition nonempty_list (l : option (list string)) : list string :=
  match l with
  | Some l => l
  | None => []
  end.

(** app.py:423-445: the action items built from the selected level and the
    optional keys of [gap_details]. *)
Definition specific_actions (g : gap_info) : list string :=
  let selected := inject_Z (gi_selected_level g) in
  let gd := gi_gap_details g in
  (if Qlt_bool selected 2 then
     ("Immediate: Select and implement Level 2 maturity for " ++ gi_clause_name g)
     :: map (fun action => "  " ++ bullet ++ " " ++ action)
            (filter (fun action => contains "Level 2" action || contains "Level 1" action)
                    (nonempty_list (required_actions gd)))
   else [])
  ++
  (if Qlt_bool selected 3 then
     "Short-term: Advance to Level 3 by implementing standardized frameworks"
     :: match nonempty_list (practices_to_implement gd) with
        | [] => []
        | l => ["  " ++ bullet ++ " Key practices to implement: " ++ join ", " (firstn 2 l)]
        end
   else [])
  ++
  (if Qlt_bool selected 4 then
     "Long-term: Achieve Level 4 maturity through automation and optimization"
     :: match target_level_description gd with
        | Some d => if String.eqb d "" then [] else ["  " ++ bullet ++ " Target state: " ++ d]
        | None => []
        end
   else [])
  ++
  match nonempty_list (missing_elements gd) with
  | [] => []
  | l => ["Address missing elements: " ++ join ", " (firstn 3 l)]
  end.

(** app.py:448-454: the fallback when no action item was produced. *)
Definition generic_actions (g : gap_info) : list string :=
  let current := gi_current_level g in
  (if Qlt_bool current 2 then
     ["Establish basic documentation and processes for " ++ gi_clause_name g
      ++ " to reach Level 2."]
   else [])
  ++
  (if Qlt_bool current 3 then
     ["Develop standardized frameworks and integrate " ++ gi_clause_name g
      ++ " into planning processes to reach Level 3."]
   else [])
  ++
  (if Qlt_bool current 4 then
     ["Implement automation and continuous improvement for " ++ gi_clause_name g
      ++ " to reach Level 4."]
   else []).

Definition action_items_of (g : gap_info) : list string :=
  match specific_actions g with
  | [] => generic_actions g
  | items => items
  end.

(** app.py:420 *)
Definition gap_size (g : gap_info) : Q :=
  inject_Z (gi_target_level g) - gi_current_level g.

(** The body of the loop of app.py:405-475. *)
Definition recommendation_of (g : gap_info) : recommendation :=
  {| rec_clause := gi_clause g;
     rec_clause_name := gi_clause_name g;
     rec_current_level := gi_current_level g;
     rec_selected_level := inject_Z (gi_selected_level g);
     rec_target_level := gi_target_level g;
     rec_action_items := action_items_of g;
     rec_timeline := timeline_of (gap_size g);
     rec_missing_elements := nonempty_list (missing_elements (gi_gap_details g));
     rec_practices_to_implement := nonempty_list (practices_to_implement (gi_gap_details g));
     rec_resources_required :=
       "Training, documentation tools, process improvement resources, and management commitment for "
       ++ gi_clause_name g ++ "." |}.

Definition recommendations_of (st : scorer_state) : list recommendation :=
  map recommendation_of (critical_gaps st ++ moderate_gaps st ++ minor_gaps st).

(** app.py:478-509 *)
Definition roadmap_of (st : scorer_state) : roadmap :=
  {| phase_1 :=
       {| ph_title := "Foundation (Level 1 to Level 2)";
          ph_duration := "3-6 months";
          ph_clauses := map gi_clause (firstn 5 (critical_gaps st) ++ firstn 3 (moderate_gaps st));
          ph_key_actions :=
            [ "Document basic processes and procedures";
              "Establish foundational documentation";
              "Identify key stakeholders and requirements" ] |};
     phase_2 :=
       {| ph_title := "Standardization (Level 2 to Level 3)";
          ph_duration := "6-9 months";
          ph_clauses := map gi_clause (critical_gaps st ++ moderate_gaps st);
          ph_key_actions :=
            [ "Develop standardized frameworks";
              "Integrate processes into strategic planning";
              "Establish regular review processes" ] |};
     phase_3 :=
       {| ph_title := "Optimization (Level 3 to Level 4)";
          ph_duration := "6-12 months";
          ph_clauses := map gi_clause (critical_gaps st ++ moderate_gaps st ++ minor_gaps st);
          ph_key_actions :=
            [ "Implement automation and monitoring systems";
              "Use data-driven decision making";
              "Align all processes with strategic objectives" ] |} |}.

Definition clause_label (g : gap_info) : string :=
  gi_clause g ++ " - " ++ gi_clause_name g.

(** app.py:512-516 *)
Definition priority_matrix_of (st : scorer_state) : priority_matrix :=
  {| quick_wins := map clause_label (firstn 5 (minor_gaps st));
     strategic_initiatives := map clause_label (firstn 5 (critical_gaps st));
     foundational_requirements := map clause_label (firstn 5 (moderate_gaps st)) |}.

Definition str_of_len {A : Type} (l : list A) : string := str_of_Z (Z.of_nat (List.length l)).

(** app.py:526-531, the summary that is returned. *)
Definition executive_summary_of (st : scorer_state) : string :=
  "Based on your assessment selections, the organization is currently at "
  ++ overall_maturity st ++ " maturity level "
  ++ "with an overall compliance score of "
  ++ format_fixed 1 (overall_percentage_score_of st) ++ "%. "
  ++ "Out of " ++ str_of_Z (clause_count st) ++ " clauses assessed, "
  ++ str_of_len (critical_gaps st) ++ " require critical attention, "
  ++ str_of_len (moderate_gaps st) ++ " have moderate gaps, and "
  ++ str_of_len (minor_gaps st) ++ " have minor gaps. "
  ++ match critical_gaps st with
     | [] => ""
     | _ => "Priority focus areas include "
            ++ join ", " (map clause_label (firstn 3 (critical_gaps st))) ++ "."
     end.

(** app.py:533-548 *)
Definition build_report (st : scorer_state) : report :=
  {| executive_summary := executive_summary_of st;
     overall_maturity_score := overall_maturity st;
     overall_maturity_numeric := py_round (overall_maturity_numeric_of st) 2;
     overall_percentage_score := overall_percentage_score_of st;
     total_clauses := clause_count st;
     rp_assessed_clauses := assessed_clauses st;
     rp_gap_analysis :=
       {| ga_critical_gaps := critical_gaps st;
          ga_moderate_gaps := moderate_gaps st;
          ga_minor_gaps := minor_gaps st |};
     recommendations := recommendations_of st;
     rp_roadmap_to_level_4 := roadmap_of st;
     rp_priority_matrix := priority_matrix_of st |}.

(** [generate_compliance_report] (app.py:168-550).  The result [None] is
    Python's [None], returned by the guard [if not assessments]. *)
Definition generate_compliance_report (assessments : list assessment) : option report :=
  match assessments with
  | [] => None
  | _ => Some (build_report (scorer_loop assessments))
  end.

(** *** The routine over the caller's list object

    The same routine with the argument held in a store that the body could
    write to: the [for] statement reads the list through an index, as the
    list iterator does. *)

Definition store : Type := list assessment.

Definition M (A : Type) : Type := store -> A * store.

Definition ret {A : Type} (x : A) : M A := fun s => (x, s).

Definition bind {A B : Type} (m : M A) (k : A -> M B) : M B :=
  fun s => let (x, s') := m s in k x s'.

Notation "x <- m ;; k" := (bind m (fun x => k)) (at level 61, m at next level, right associativity).

(** [len(assessments)] *)
Definition load_length : M nat := fun s => (List.length s, s).

(** The iterator's read of [assessments[i]]; [None] past the end. *)
Definition load_item (i : nat) : M (option assessment) := fun s => (nth_error s i, s).

(** The [for] loop from index [i]; [fuel] bounds the number of iterations. *)
Fixpoint for_each (fuel : nat) (i : nat) (st : scorer_state) : M scorer_state :=
  match fuel with
  | O => ret st
  | S fuel' =>
      x <- load_item i ;;
      match x with
      | None => ret st
      | Some a => for_each fuel' (S i) (scorer_step st a)
      end
  end.

Definition generate_compliance_report_run : M (option report) :=
  n <- load_length ;;
  if (n =? 0)%nat then ret None
  else st <- for_each n 0 initial_state ;; ret (Some (build_report st)).

(** Two invocations in a row on the same list object. *)
Definition generate_twice : M (option report * option report) :=
  r1 <- generate_compliance_report_run ;;
  r2 <- generate_compliance_report_run ;;
  ret (r1, r2).


(** *** Notions of the specification *)

(** An entry of [calculated_score] that [float] rejects (a non-empty
    container, a string that is no number). *)
Definition unreadable (v : option pyval) : Prop :=
  float_or_zero (get_or_zero v) = None.

(** [calculated_score] is absent, is no dict, or has an unreadable entry. *)
Definition score_malformed (a : assessment) : Prop :=
  match calculated_score a with
  | None => True
  | Some d =>
      sc_percentage d = None \/
      unreadable (sc_percentage d) \/ unreadable (sc_total d) \/ unreadable (sc_max d)
  end.

Definition Qsum (l : list Q) : Q := fold_right Qplus 0 l.

Definition mean (l : list Q) : Q := Qsum l / inject_Z (Z.of_nat (List.length l)).

(** The records that enter the weighted percentage. *)
Definition counted (a : assessment) : bool := Qgt_bool (max_score a) 0.

(** [sum(total_score)/sum(max_score)*100] over the records with
    [max_score > 0], 0 when there is none. *)
Definition weighted_percentage (l : list assessment) : Q :=
  match filter counted l with
  | [] => 0
  | c => Qsum (map total_score c) / Qsum (map max_score c) * 100
  end.

(** A record whose scores are well-formed and in range. *)
Definition well_formed (a : assessment) : Prop :=
  (exists n, selected_maturity_level a = PyInt n /\ (1 <= n <= 4)%Z) /\
  0 <= total_score a /\ total_score a <= max_score a /\
  (0 < max_score a -> score_percentage a == total_score a / max_score a * 100) /\
  (max_score a == 0 -> score_percentage a == 0).

Definition bucket_eqb (b1 b2 : bucket) : bool :=
  match b1, b2 with
  | Critical, Critical | Moderate, Moderate | Minor, Minor => true
  | _, _ => false
  end.

(** The records of a list that fall into a bucket, in their order. *)
Definition records_in (b : bucket) (l : list assessment) : list assessment :=
  filter (fun a => bucket_eqb (bucket_of a) b) l.

(** The [impact] written into the gap records of a bucket. *)
Definition impact_label (b : bucket) : string :=
  match b with
  | Critical => "High"
  | Moderate => "Medium"
  | Minor => "Low"
  end.

(** The bucket of a state that a classification names. *)
Definition bucket_list (st : scorer_state) (b : bucket) : list gap_info :=
  match b with
  | Critical => critical_gaps st
  | Moderate => moderate_gaps st
  | Minor => minor_gaps st
  end.

(** The [maturity_levels] of a record have an entry for level [t]. *)
Definition has_level (t : Z) (a : assessment) : bool :=
  match level_data t (maturity_levels a) with
  | Some _ => true
  | None => false
  end.

(** The step number and the target level of each step of a roadmap. *)
Definition step_numbers (steps : list roadmap_step) : list (Z * Z) :=
  map (fun s => (rs_step s, rs_target_level s)) steps.

(** *** Sample records *)

Definition sample_level (n : Z) : maturity_level :=
  {| level := PyInt n;
     description := "Level " ++ str_of_Z n ++ " state";
     practices := [ {| text := "Practice A"; score := 1 |};
                    {| text := "Practice B"; score := 1 # 2 |} ] |}.

Definition sample_levels : list maturity_level :=
  [sample_level 1; sample_level 2; sample_level 3; sample_level 4].

Definition sample_score (p t m : Q) : option score_dict :=
  Some {| sc_percentage := Some (PyFloat p);
          sc_total := Some (PyFloat t);
          sc_max := Some (PyFloat m) |}.

(** Level 2 selected, 30% of the practices: effective level 1.5. *)
Definition record_level_2 : assessment :=
  {| clause := "7.3 Design and Development";
     selected_maturity_level := PyInt 2;
     calculated_score := sample_score 30 3 10;
     maturity_levels := sample_levels |}.

(** Level 3 selected, 80% of the practices. *)
Definition record_level_3 : assessment :=
  {| clause := "8.1 Operational Planning";
     selected_maturity_level := PyInt 3;
     calculated_score := sample_score 80 8 10;
     maturity_levels := sample_levels |}.

(** Level 3 selected, 60% of the practices: effective level 2.75. *)
Definition record_level_3_partial : assessment :=
  {| clause := "8.4 External Providers";
     selected_maturity_level := PyInt 3;
     calculated_score := sample_score 60 6 10;
     maturity_levels := sample_levels |}.

(** Level 4 selected, all practices. *)
Definition record_level_4 : assessment :=
  {| clause := "4.4 Quality Management System";
     selected_maturity_level := PyInt 4;
     calculated_score := sample_score 100 10 10;
     maturity_levels := sample_levels |}.

(** No selection, no score. *)
Definition record_unselected : assessment :=
  {| clause := "9.2 Internal Audit";
     selected_maturity_level := PyNone;
     calculated_score := None;
     maturity_levels := sample_levels |}.

(** A selection that is no number and a score with an unreadable entry. *)
Definition record_malformed : assessment :=
  {| clause := "10.2";
     selected_maturity_level := PyContainer true;
     calculated_score :=
       Some {| sc_percentage := Some (PyFloat 80);
               sc_total := Some (PyContainer true);
               sc_max := Some (PyInt 10) |};
     maturity_levels := [] |}.

(** Level 2 selected, 80% of the practices. *)
Definition record_level_2_complete : assessment :=
  {| clause := "6.1 Risks and Opportunities";
     selected_maturity_level := PyInt 2;
     calculated_score := sample_score 80 8 10;
     maturity_levels := sample_levels |}.

Definition sample_records : list assessment :=
  [record_level_4; record_level_2_complete; record_level_2; record_level_3].

(** *** Notions used by the further properties *)

(** The label of a record in the priority matrix. *)
Definition record_label (a : assessment) : string :=
  clause_num a ++ " - " ++ clause_name a.

(** The number of levels between the selected level, at least 1, and the
    target level. *)
Definition levels_to_go (a : assessment) : nat :=
  Z.to_nat (target_level - Z.max 1 (current_level a)).

(** *** Saving the selections

    The loop of [save_selections] (app.py:1252-1292) over the selections
    sent by the page, on the list read from the assessment file.  A result
    [None] stands for an exception, which the route answers with status 500
    without writing the file. *)

(** [int(s)] on a string is Python's own parser: its result, or [None]
    where it raises [ValueError]. *)
Variable int_of_str : string -> option Z.

(** The [maturity_level] of a selection: a JSON scalar. *)
Inductive scalar : Type :=
| ScNone
| ScBool (b : bool)
| ScInt (z : Z)
| ScFloat (q : Q)
| ScStr (s : string).

(** One entry of [selections]: [None] is an absent key; [sel_practices]
    holds the items of the dict in their order. *)
Record selection : Type := {
  sel_maturity_level : option scalar;
  sel_practices : option (list (string * pyval))
}.

Definition pyval_of_scalar (m : scalar) : pyval :=
  match m with
  | ScNone => PyNone
  | ScBool b => PyBool b
  | ScInt z => PyInt z
  | ScFloat q => PyFloat q
  | ScStr s => PyStr s
  end.

(** The number a value is, if it is one. *)
Definition py_number (v : pyval) : option Q :=
  match v with
  | PyBool b => Some (if b then 1 else 0)
  | PyInt z => Some (inject_Z z)
  | PyFloat q => Some q
  | _ => None
  end.

(** [v == m] for a scalar [m]: numbers by value, strings by content,
    [None] with [None]. *)
Definition py_eq_scalar (v : pyval) (m : scalar) : bool :=
  match v, m with
  | PyNone, ScNone => true
  | PyStr s, ScStr t => String.eqb s t
  | _, _ =>
      match py_number v, py_number (pyval_of_scalar m) with
      | Some x, Some y => Qeq_bool x y
      | _, _ => false
      end
  end.

(** The position [l[i]] reads: from the end for a negative [i]; [None] is
    [IndexError]. *)
Definition py_position (len : nat) (i : Z) : option nat :=
  if (0 <=? i)%Z then
    if (i <? Z.of_nat len)%Z then Some (Z.to_nat i) else None
  else
    if (- Z.of_nat len <=? i)%Z then Some (Z.to_nat (Z.of_nat len + i)) else None.

(** [l[i]] *)
Definition py_index {A : Type} (l : list A) (i : Z) : option A :=
  match py_position (List.length l) i with
  | Some n => nth_error l n
  | None => None
  end.

(** The list after the object at position [n] was changed into [x]. *)
Fixpoint set_nth {A : Type} (l : list A) (n : nat) (x : A) : list A :=
  match l, n with
  | [], _ => []
  | _ :: r, O => x :: r
  | y :: r, S n' => y :: set_nth r n' x
  end.

(** The loop over the ticked practices (app.py:1278-1284), from the sums
    [total] and [max] so far. *)
Fixpoint score_practices (ps : list practice) (ticks : list (string * pyval))
                         (total max : Q) : option (Q * Q) :=
  match ticks with
  | [] => Some (total, max)
  | (key, is_selected) :: rest =>
      match int_of_str key with
      | None => None
      | Some i =>
          if (i <? Z.of_nat (List.length ps))%Z then
            match py_index ps i with
            | None => None
            | Some p =>
                score_practices ps rest
                  (if py_truthy is_selected then total + score p else total)
                  (max + score p)
            end
          else score_practices ps rest total max
      end
  end.

(** The dict stored under [calculated_score] (app.py:1287-1291). *)
Definition stored_score (total max : Q) : score_dict :=
  {| sc_percentage :=
       Some (if Qgt_bool max 0 then PyFloat (total / max * 100) else PyInt 0);
     sc_total := Some (PyFloat total);
     sc_max := Some (PyFloat max) |}.

(** The first entry of [maturity_levels] whose level equals the selected
    one: the loop of app.py:1272-1292 stops there. *)
Definition selected_entry (m : scalar) (mls : list maturity_level) : option maturity_level :=
  find (fun ml => py_eq_scalar (level ml) m) mls.

Definition with_selected_level (a : assessment) (v : pyval) : assessment :=
  {| clause := clause a;
     selected_maturity_level := v;
     calculated_score := calculated_score a;
     maturity_levels := maturity_levels a |}.

Definition with_calculated_score (a : assessment) (d : score_dict) : assessment :=
  {| clause := clause a;
     selected_maturity_level := selected_maturity_level a;
     calculated_score := Some d;
     maturity_levels := maturity_levels a |}.

(** The update of one clause (app.py:1258-1292). *)
Definition apply_selection (a : assessment) (s : selection) : option assessment :=
  let a1 := match sel_maturity_level s with
            | Some m => with_selected_level a (pyval_of_scalar m)
            | None => a
            end in
  match sel_practices s, sel_maturity_level s with
  | Some ticks, Some m =>
      match selected_entry m (maturity_levels a1) with
      | Some ml =>
          match score_practices (practices ml) ticks 0 0 with
          | Some (total, max) => Some (with_calculated_score a1 (stored_score total max))
          | None => None
          end
      | None => Some a1
      end
  | _, _ => Some a1
  end.

(** The loop over the selections (app.py:1253-1292). *)
Fixpoint save_selections_update (assessments : list assessment)
                                (selections : list (string * selection))
  : option (list assessment) :=
  match selections with
  | [] => Some assessments
  | (key, s) :: rest =>
      match int_of_str key with
      | None => None
      | Some i =>
          if (i <? Z.of_nat (List.length assessments))%Z then
            match py_position (List.length assessments) i with
            | None => None
            | Some n =>
                match nth_error assessments n with
                | None => None
                | Some a =>
                    match apply_selection a s with
                    | None => None
                    | Some a' => save_selections_update (set_nth assessments n a') rest
                    end
                end
            end
          else save_selections_update assessments rest
      end
  end.

(** The practices of an entry that a list of ticks marks, for ticks that
    come one for each practice, in order. *)
Fixpoint ticked (ps : list practice) (ticks : list (string * pyval)) : list practice :=
  match ps, ticks with
  | p :: ps', (_, v) :: ticks' =>
      if py_truthy v then p :: ticked ps' ticks' else ticked ps' ticks'
  | _, _ => []
  end.

(** The keys of the ticks are the indices 0, 1, 2, ... from [n] on. *)
Fixpoint keys_from (n : nat) (ticks : list (string * pyval)) : Prop :=
  match ticks with
  | [] => True
  | (key, _) :: rest => int_of_str key = Some (Z.of_nat n) /\ keys_from (S n) rest
  end.

(** *** The assessments folder

    The helpers that name and find the saved files (app.py:26-165).  The
    folder is the list of its file names with their modification times, in
    the order [os.listdir] gives them; [None] is a folder that does not
    exist.  Strings are the UTF-8 bytes of the Python strings. *)

(** [os.path.splitext(f)[0]] *)
Variable splitext_base : string -> string.

(** [s.upper()] *)
Variable py_upper : string -> string.

(** [re.search(pattern, s, re.IGNORECASE)]: group 1 of the match, [None]
    when there is none. *)
Variable re_search : string -> string -> option string.

(** [os.path.join(folder, file)] *)
Variable path_join : string -> string -> string.

Definition SAVE_FOLDER : string := "assessments".

Definition is_alnum (c : ascii) : bool :=
  let n := nat_of_ascii c in
  ((48 <=? n) && (n <=? 57) || (65 <=? n) && (n <=? 90) || (97 <=? n) && (n <=? 122))%nat.

(** A byte that continues a UTF-8 sequence. *)
Definition is_continuation (c : ascii) : bool :=
  let n := nat_of_ascii c in ((128 <=? n) && (n <=? 191))%nat.

(** [re.sub(r'[^a-zA-Z0-9]', '_', s)]: every character outside the class
    becomes one underscore; of a character of several bytes the first byte
    gives the underscore and the others are dropped. *)
Fixpoint sanitize (s : string) : string :=
  match s with
  | EmptyString => EmptyString
  | String c r =>
      if is_alnum c then String c (sanitize r)
      else if is_continuation c then sanitize r
      else String "_"%char (sanitize r)
  end.

(** [s.replace(' ', '_')] *)
Fixpoint replace_spaces (s : string) : string :=
  match s with
  | EmptyString => EmptyString
  | String c r => String (if Ascii.eqb c " "%char then "_"%char else c) (replace_spaces r)
  end.

(** [s.endswith(suffix)] *)
Fixpoint ends_with (suffix s : string) : bool :=
  if String.eqb s suffix then true
  else match s with
       | EmptyString => false
       | String _ r => ends_with suffix r
       end.

Definition standard_patterns : list string :=
  [ "(AS9100[Dd]?)"; "(ISO[_\s]?\d{5})"; "(ISO[_\s]?14001)"; "(ISO[_\s]?9001)" ].

(** The loop of app.py:42-46: the first pattern that matches. *)
Fixpoint first_match (patterns : list string) (s : string) : option string :=
  match patterns with
  | [] => None
  | p :: rest =>
      match re_search p s with
      | Some g => Some g
      | None => first_match rest s
      end
  end.

(** [extract_standard_name] (app.py:31-49) *)
Definition extract_standard_name (filename : string) : string :=
  let base_filename := splitext_base filename in
  match first_match standard_patterns base_filename with
  | Some g => replace_spaces (py_upper g)
  | None => sanitize base_filename
  end.

Definition safe_name (filename : string) : string :=
  sanitize (splitext_base filename).

(** The test of app.py:73-75 on a file of the folder. *)
Definition is_assessment_of (filename file : string) : bool :=
  ends_with ".json" file && negb (contains "_compliance_report" file)
  && ((negb (String.eqb (extract_standard_name filename) "")
       && contains (extract_standard_name filename) (py_upper file))
      || String.prefix (safe_name filename ++ "_") file).

(** The test of app.py:156-157 on a file of the folder. *)
Definition is_report_of (filename file : string) : bool :=
  ends_with ".json" file && contains "_compliance_report" file
  && ((negb (String.eqb (extract_standard_name filename) "")
       && contains (extract_standard_name filename) (py_upper file))
      || contains (safe_name filename) file).

(** [l.sort(key=lambda x: x[1], reverse=True)]: a stable sort, latest first. *)
Fixpoint insert_by_time (x : string * Q) (l : list (string * Q)) : list (string * Q) :=
  match l with
  | [] => [x]
  | y :: r => if Qlt_bool (snd x) (snd y) then y :: insert_by_time x r else x :: y :: r
  end.

Definition sort_latest_first (l : list (string * Q)) : list (string * Q) :=
  fold_right insert_by_time [] l.

(** The files of the folder that pass a test, as paths with their times,
    and the path that is returned: the first after sorting. *)
Definition matching_files (test : string -> bool) (folder : option (list (string * Q)))
  : list (string * Q) :=
  match folder with
  | Some files =>
      map (fun ft => (path_join SAVE_FOLDER (fst ft), snd ft))
          (filter (fun ft => test (fst ft)) files)
  | None => []
  end.

Definition latest_match (test : string -> bool) (folder : option (list (string * Q)))
  : option string :=
  match sort_latest_first (matching_files test folder) with
  | [] => None
  | (path, _) :: _ => Some path
  end.

(** [find_existing_assessment] (app.py:52-88) *)
Definition find_existing_assessment (folder : option (list (string * Q)))
                                    (filename : string) : option string :=
  latest_match (is_assessment_of filename) folder.

(** [find_existing_compliance_report] (app.py:146-165) *)
Definition find_existing_compliance_report (folder : option (list (string * Q)))
                                           (filename : string) : option string :=
  latest_match (is_report_of filename) folder.

(** The name of the file [save_locally] writes (app.py:122-125), for the
    text [timestamp] of the current time. *)
Definition assessment_file_name (filename timestamp : string) : string :=
  safe_name filename ++ "_" ++ timestamp ++ ".json".

(** The name of the file [save_compliance_report] writes (app.py:135-138). *)
Definition report_file_name (filename timestamp : string) : string :=
  safe_name filename ++ "_compliance_report_" ++ timestamp ++ ".json".

(** A character of a safe name. *)
Definition is_safe_char (c : ascii) : bool := is_alnum c || Ascii.eqb c "_"%char.

Fixpoint all_chars (test : ascii -> bool) (s : string) : bool :=
  match s with
  | EmptyString => true
  | String c r => test c && all_chars test r
  end.

(** *** The report route

    [generate_compliance_report_route] (app.py:1146-1228) on the folder and
    the file name of the request.  Reading and writing files is outside the
    model: [load_assessment] is the decoded content of a path, and the
    report is taken to be written without an error. *)

(** [load_assessment(path)]: the records of the file, [None] when it cannot
    be read. *)
Variable load_assessment : string -> option (list assessment).

(** What a route answers: a body with status 200, an error message with its
    status, or the text of an exception with status 500. *)
Inductive response (A : Type) : Type :=
| Ok (body : A)
| Error (status : Z) (message : string)
| Raised.

Arguments Ok {A} body.
Arguments Error {A} status message.
Arguments Raised {A}.

(** [d.get(key, 0)] *)
Definition get_default_zero (v : option pyval) : pyval :=
  match v with
  | Some x => x
  | None => PyInt 0
  end.

(** The scan of one record before the report is generated
    (app.py:1181-1189): [false] when it raises, on a maximum that cannot be
    compared with 0 or on a score that cannot be formatted as a number. *)
Definition scan_record (a : assessment) : bool :=
  match calculated_score a with
  | None => true
  | Some d =>
      match py_number (get_default_zero (sc_max d)) with
      | None => false
      | Some mx =>
          if Qgt_bool mx 0 then
            py_is_number (get_default_zero (sc_percentage d))
            && py_is_number (get_default_zero (sc_total d))
          else true
      end
  end.

(** [generate_compliance_report_route] *)
Definition generate_compliance_report_route (folder : option (list (string * Q)))
                                            (filename : option string) : response report :=
  match filename with
  | None => Error 400 "Filename is required"
  | Some name =>
      if String.eqb name "" then Error 400 "Filename is required"
      else
        match find_existing_assessment folder name with
        | None => Error 404 "No assessment found. Please analyze a document first."
        | Some path =>
            if String.eqb path "" then
              Error 404 "No assessment found. Please analyze a document first."
            else
              match load_assessment path with
              | None | Some [] => Error 500 "Failed to load assessments"
              | Some assessments =>
                  if forallb scan_record assessments then
                    match generate_compliance_report assessments with
                    | None => Error 500 "Failed to generate compliance report"
                    | Some compliance_report => Ok compliance_report
                    end
                  else Raised
              end
        end
  end.

(** *** Samples for the selections and the folder *)

(** A parser for the sample keys: decimal digits with an optional minus
    sign, which [int] reads the same way. *)
Definition decimal_int (s : string) : option Z :=
  option_map Z.of_int (NilZero.int_of_string s).

(** Stand-ins for the library functions on the sample file names, which
    are plain ASCII with the extension ".pdf" or ".json". *)
Definition sample_splitext_base (s : string) : string :=
  if ends_with ".pdf" s then substring 0 (String.length s - 4) s else s.

Definition sample_upper (s : string) : string :=
  string_of_list_ascii
    (map (fun c => let n := nat_of_ascii c in
                   if ((97 <=? n) && (n <=? 122))%nat then ascii_of_nat (n - 32) else c)
         (list_ascii_of_string s)).

Definition sample_re_search (pattern s : string) : option string := None.

Definition sample_path_join (folder file : string) : string := folder ++ "/" ++ file.

(** Both practices of the level ticked, and only the first. *)
Definition sample_ticks_all : list (string * pyval) :=
  [("0", PyBool true); ("1", PyBool true)].

Definition sample_ticks_first : list (string * pyval) :=
  [("0", PyBool true); ("1", PyBool false)].

Definition sample_selection : selection :=
  {| sel_maturity_level := Some (ScInt 3); sel_practices := Some sample_ticks_all |}.

Definition sample_selection_first : selection :=
  {| sel_maturity_level := Some (ScInt 3); sel_practices := Some sample_ticks_first |}.

(** The record [record_unselected] after [sample_selection]. *)
Definition record_saved : assessment :=
  {| clause := "9.2 Internal Audit";
     selected_maturity_level := PyInt 3;
     calculated_score := Some (stored_score (0 + 1 + (1 # 2)) (0 + 1 + (1 # 2)));
     maturity_levels := sample_levels |}.

Definition sample_folder : list (string * Q) :=
  [ ("AS9100D_2024-01-01_10-00-00.json", 100);
    ("AS9100D_compliance_report_2024-01-02_10-00-00.json", 300);
    ("AS9100D_2024-01-03_09-30-00.json", 200);
    ("notes.txt", 400) ].

(** A file content with a [max] that is a string. *)
Definition record_text_max : assessment :=
  {| clause := "7.1 Resources";
     selected_maturity_level := PyInt 2;
     calculated_score :=
       Some {| sc_percentage := Some (PyFloat 50);
               sc_total := Some (PyFloat 1);
               sc_max := Some (PyStr "two") |};
     maturity_levels := sample_levels |}.

Definition sample_load (path : string) : option (list assessment) :=
  Some [record_level_3; record_text_max].

(** ** Properties *)

(** *** Comparisons *)

Lemma Qlt_bool_iff (x y : Q) : Qlt_bool x y = true <-> x < y.
Proof.
  unfold Qlt_bool. rewrite negb_true_iff.
  split; intro H.
  - apply Qnot_le_lt. intro Hle. apply Qle_bool_iff in Hle. congruence.
  - destruct (Qle_bool y x) eqn:E; [|reflexivity].
    apply Qle_bool_iff in E. exfalso. apply (Qlt_not_le _ _ H E).
Qed.

Lemma Qlt_bool_false_iff (x y : Q) : Qlt_bool x y = false <-> y <= x.
Proof.
  unfold Qlt_bool. rewrite negb_false_iff. apply Qle_bool_iff.
Qed.

Lemma Qge_bool_iff (x y : Q) : Qge_bool x y = true <-> y <= x.
Proof. unfold Qge_bool. apply Qle_bool_iff. Qed.

Lemma Qge_bool_false_iff (x y : Q) : Qge_bool x y = false <-> x < y.
Proof.
  unfold Qge_bool. split; intro H.
  - apply Qnot_le_lt. intro Hle. apply Qle_bool_iff in Hle. congruence.
  - destruct (Qle_bool y x) eqn:E; [|reflexivity].
    apply Qle_bool_iff in E. exfalso. apply (Qlt_not_le _ _ H E).
Qed.

Lemma Qgt_bool_iff (x y : Q) : Qgt_bool x y = true <-> y < x.
Proof. unfold Qgt_bool. apply Qlt_bool_iff. Qed.

Lemma py_max_Qmax (a b : Q) : py_max a b == Qmax a b.
Proof.
  unfold py_max. destruct (Qlt_bool a b) eqn:E.
  - apply Qlt_bool_iff in E. symmetry. apply Q.max_r. apply Qlt_le_weak, E.
  - apply Qlt_bool_false_iff in E. symmetry. apply Q.max_l, E.
Qed.

(** Case analysis on the boolean comparisons of a goal or a hypothesis. *)
Ltac q_cases :=
  repeat match goal with
  | |- context [Qge_bool ?x ?y] =>
      let E := fresh "E" in
      destruct (Qge_bool x y) eqn:E;
      [apply Qge_bool_iff in E | apply Qge_bool_false_iff in E]
  | |- context [Qlt_bool ?x ?y] =>
      let E := fresh "E" in
      destruct (Qlt_bool x y) eqn:E;
      [apply Qlt_bool_iff in E | apply Qlt_bool_false_iff in E]
  end.

(** *** Effective level *)

Lemma score_percentage_malformed (a : assessment) :
  score_malformed a -> score_percentage a = 0.
Proof.
  unfold score_malformed, score_percentage, scores, unreadable.
  destruct (calculated_score a) as [d|]; [|reflexivity].
  intros [H | [H | [H | H]]]; rewrite H; simpl.
  - destruct (float_or_zero (get_or_zero (sc_total d))); [|reflexivity].
    destruct (float_or_zero (get_or_zero (sc_max d))); reflexivity.
  - reflexivity.
  - destruct (float_or_zero (get_or_zero (sc_percentage d))); reflexivity.
  - destruct (float_or_zero (get_or_zero (sc_percentage d))); [|reflexivity].
    destruct (float_or_zero (get_or_zero (sc_total d))); reflexivity.
Qed.

(** C3.  The effective level of a record is [max(1, current_level - 0.5)]
    when [current_level > 1] and [score_percentage < 50], is
    [current_level - 0.25] when [current_level > 1] and
    [50 <= score_percentage < 75], and is [current_level] otherwise;
    [current_level] is 1 when [selected_maturity_level] is absent or no
    number, and [score_percentage] is 0 when [calculated_score] is absent or
    malformed. *)
Theorem effective_level_cases (a : assessment) :
  ((1 < current_level a)%Z -> score_percentage a < 50 ->
     effective_level a == Qmax 1 (inject_Z (current_level a) - (1 # 2))) /\
  ((1 < current_level a)%Z -> 50 <= score_percentage a -> score_percentage a < 75 ->
     effective_level a == inject_Z (current_level a) - (1 # 4)) /\
  ((current_level a <= 1)%Z \/ 75 <= score_percentage a ->
     effective_level a == inject_Z (current_level a)) /\
  (py_is_number (selected_maturity_level a) = false -> current_level a = 1%Z) /\
  (score_malformed a -> score_percentage a = 0).
Proof.
  unfold effective_level.
  repeat split.
  - intros Hc Hp.
    apply Z.ltb_lt in Hc. apply Qlt_bool_iff in Hp. rewrite Hc, Hp. simpl.
    apply py_max_Qmax.
  - intros Hc Hlo Hhi.
    apply Z.ltb_lt in Hc. apply Qlt_bool_false_iff in Hlo. apply Qlt_bool_iff in Hhi.
    rewrite Hc, Hlo, Hhi. simpl. reflexivity.
  - intros [Hc | Hp].
    + apply Z.ltb_ge in Hc. rewrite Hc. simpl. reflexivity.
    + assert (H50 : Qlt_bool (score_percentage a) 50 = false)
        by (apply Qlt_bool_false_iff; lra).
      assert (H75 : Qlt_bool (score_percentage a) 75 = false)
        by (apply Qlt_bool_false_iff; lra).
      rewrite H50, H75, !andb_false_r. reflexivity.
  - unfold current_level. destruct (selected_maturity_level a); simpl; congruence.
  - apply score_percentage_malformed.
Qed.

(** *** Gap classification *)

Lemma bucket_of_cases (a : assessment) :
  (bucket_of a = Critical <-> 5 # 2 <= gap a) /\
  (bucket_of a = Moderate <-> 3 # 2 <= gap a /\ gap a < 5 # 2) /\
  (bucket_of a = Minor <-> gap a < 3 # 2).
Proof.
  unfold bucket_of. q_cases; repeat split; intros; try congruence; try lra.
Qed.

Lemma impact_of_cases (g : Q) :
  (impact_of g = "High" <-> 5 # 2 <= g) /\
  (impact_of g = "Medium" <-> 3 # 2 <= g /\ g < 5 # 2) /\
  (impact_of g = "Low" <-> g < 3 # 2).
Proof.
  unfold impact_of. q_cases; repeat split; intros; try discriminate; try lra.
Qed.

Lemma priority_of_cases (g : Q) :
  (priority_of g = "Critical" <-> 5 # 2 <= g) /\
  (priority_of g = "High" <-> 3 # 2 <= g /\ g < 5 # 2) /\
  (priority_of g = "Medium" <-> 1 # 2 <= g /\ g < 3 # 2) /\
  (priority_of g = "Low" <-> g < 1 # 2).
Proof.
  unfold priority_of. q_cases; repeat split; intros; try discriminate; try lra.
Qed.

(** One iteration appends the record's [gap_info] to the bucket of the
    record and leaves the two others as they were. *)
Lemma scorer_step_buckets (st : scorer_state) (a : assessment) :
  match bucket_of a with
  | Critical =>
      critical_gaps (scorer_step st a) = (critical_gaps st ++ [gap_info_of a])%list /\
      moderate_gaps (scorer_step st a) = moderate_gaps st /\
      minor_gaps (scorer_step st a) = minor_gaps st
  | Moderate =>
      critical_gaps (scorer_step st a) = critical_gaps st /\
      moderate_gaps (scorer_step st a) = (moderate_gaps st ++ [gap_info_of a])%list /\
      minor_gaps (scorer_step st a) = minor_gaps st
  | Minor =>
      critical_gaps (scorer_step st a) = critical_gaps st /\
      moderate_gaps (scorer_step st a) = moderate_gaps st /\
      minor_gaps (scorer_step st a) = (minor_gaps st ++ [gap_info_of a])%list
  end.
Proof.
  unfold scorer_step. simpl. destruct (bucket_of a); repeat split; reflexivity.
Qed.

(** C4.  With [gap = 4 - effective_level], a record goes to the critical
    bucket when [gap >= 2.5], to the moderate bucket when
    [1.5 <= gap < 2.5] and to the minor bucket otherwise; its [impact] is
    High, Medium or Low at the thresholds 2.5 and 1.5, and its [priority] is
    Critical, High, Medium or Low at the thresholds 2.5, 1.5 and 0.5. *)
Theorem gap_classification (st : scorer_state) (a : assessment) :
  gap a == 4 - effective_level a /\
  (5 # 2 <= gap a ->
     critical_gaps (scorer_step st a) = (critical_gaps st ++ [gap_info_of a])%list /\
     moderate_gaps (scorer_step st a) = moderate_gaps st /\
     minor_gaps (scorer_step st a) = minor_gaps st /\
     gi_impact (gap_info_of a) = "High" /\
     gi_priority (gap_info_of a) = "Critical") /\
  (3 # 2 <= gap a -> gap a < 5 # 2 ->
     critical_gaps (scorer_step st a) = critical_gaps st /\
     moderate_gaps (scorer_step st a) = (moderate_gaps st ++ [gap_info_of a])%list /\
     minor_gaps (scorer_step st a) = minor_gaps st /\
     gi_impact (gap_info_of a) = "Medium" /\
     gi_priority (gap_info_of a) = "High") /\
  (gap a < 3 # 2 ->
     critical_gaps (scorer_step st a) = critical_gaps st /\
     moderate_gaps (scorer_step st a) = moderate_gaps st /\
     minor_gaps (scorer_step st a) = (minor_gaps st ++ [gap_info_of a])%list /\
     gi_impact (gap_info_of a) = "Low" /\
     (1 # 2 <= gap a -> gi_priority (gap_info_of a) = "Medium") /\
     (gap a < 1 # 2 -> gi_priority (gap_info_of a) = "Low")).
Proof.
  pose proof (scorer_step_buckets st a) as Hb.
  destruct (bucket_of_cases a) as (Hc & Hm & Hn).
  destruct (impact_of_cases (gap a)) as (Ih & Im & Il).
  destruct (priority_of_cases (gap a)) as (Pc & Ph & Pm & Pl).
  split; [unfold gap, target_level; reflexivity|].
  split; [|split].
  - intro H. apply Hc in H as Hk. rewrite Hk in Hb.
    destruct Hb as (-> & -> & ->). simpl gi_impact. simpl gi_priority.
    repeat split; [apply Ih | apply Pc]; exact H.
  - intros H1 H2. assert (Hk : bucket_of a = Moderate) by (apply Hm; split; assumption).
    rewrite Hk in Hb. destruct Hb as (-> & -> & ->). simpl gi_impact. simpl gi_priority.
    repeat split; [apply Im | apply Ph]; split; assumption.
  - intro H. apply Hn in H as Hk. rewrite Hk in Hb.
    destruct Hb as (-> & -> & ->). simpl gi_impact. simpl gi_priority.
    repeat split.
    + apply Il; exact H.
    + intro H'. apply Pm. split; assumption.
    + apply Pl.
Qed.

(** *** The loop over the records *)

Lemma records_in_cons (b : bucket) (a : assessment) (l : list assessment) :
  records_in b (a :: l) =
  if bucket_eqb (bucket_of a) b then a :: records_in b l else records_in b l.
Proof. reflexivity. Qed.

(** The lists a run of the loop builds, from any starting state. *)
Lemma scorer_loop_lists (l : list assessment) (st : scorer_state) :
  let st' := fold_left scorer_step l st in
  critical_gaps st' = (critical_gaps st ++ map gap_info_of (records_in Critical l))%list /\
  moderate_gaps st' = (moderate_gaps st ++ map gap_info_of (records_in Moderate l))%list /\
  minor_gaps st' = (minor_gaps st ++ map gap_info_of (records_in Minor l))%list /\
  assessed_clauses st' = (assessed_clauses st ++ map gap_info_of l)%list /\
  clause_count st' = (clause_count st + Z.of_nat (List.length l))%Z.
Proof.
  revert st. induction l as [|a l IH]; intro st; cbv zeta.
  - simpl. rewrite !app_nil_r. repeat split; lia.
  - cbn [fold_left map List.length].
    destruct (IH (scorer_step st a)) as (Hc & Hm & Hn & Ha & Hk).
    rewrite Hc, Hm, Hn, Ha, Hk, !records_in_cons.
    cbn [scorer_step critical_gaps moderate_gaps minor_gaps assessed_clauses clause_count].
    destruct (bucket_of a); cbn [bucket_eqb map]; rewrite <- ?app_assoc;
      repeat split; try reflexivity; lia.
Qed.

(** The three sums a run of the loop accumulates. *)
Lemma scorer_loop_sums (l : list assessment) (st : scorer_state) :
  let st' := fold_left scorer_step l st in
  total_level_score st' == total_level_score st + Qsum (map effective_level l) /\
  total_weighted_score st' ==
    total_weighted_score st + Qsum (map total_score (filter counted l)) /\
  total_max_score st' ==
    total_max_score st + Qsum (map max_score (filter counted l)).
Proof.
  revert st. induction l as [|a l IH]; intro st; cbv zeta.
  - simpl. repeat split; ring.
  - cbn [fold_left map filter].
    destruct (IH (scorer_step st a)) as (Hl & Hw & Hm).
    rewrite Hl, Hw, Hm.
    cbn [scorer_step total_level_score total_weighted_score total_max_score].
    fold (counted a). unfold Qsum.
    destruct (counted a); cbn [map fold_right]; repeat split; ring.
Qed.

(** *** The buckets partition the records *)

Lemma gi_impact_bucket (a : assessment) :
  gi_impact (gap_info_of a) = impact_label (bucket_of a).
Proof.
  unfold gap_info_of, bucket_of, impact_of. simpl.
  destruct (Qge_bool (gap a) (5 # 2)); [reflexivity|].
  destruct (Qge_bool (gap a) (3 # 2)); reflexivity.
Qed.

Lemma impact_label_inj (b1 b2 : bucket) : impact_label b1 = impact_label b2 -> b1 = b2.
Proof. destruct b1, b2; simpl; intro H; try reflexivity; discriminate H. Qed.

Lemma bucket_eqb_eq (b1 b2 : bucket) : bucket_eqb b1 b2 = true <-> b1 = b2.
Proof. destruct b1, b2; simpl; split; intro H; try reflexivity; discriminate H. Qed.

Lemma records_in_In (b : bucket) (a : assessment) (l : list assessment) :
  In a (records_in b l) <-> In a l /\ bucket_of a = b.
Proof.
  unfold records_in. rewrite filter_In, bucket_eqb_eq. reflexivity.
Qed.

Lemma records_in_perm (l : list assessment) :
  Permutation (records_in Critical l ++ records_in Moderate l ++ records_in Minor l) l.
Proof.
  induction l as [|a l IH]; [constructor|].
  rewrite !records_in_cons. destruct (bucket_of a); cbn [bucket_eqb].
  - simpl. constructor. exact IH.
  - etransitivity; [|apply perm_skip, IH].
    symmetry. apply Permutation_middle.
  - etransitivity; [|apply perm_skip, IH].
    rewrite !app_assoc. symmetry. apply Permutation_middle.
Qed.

Lemma scorer_loop_buckets (l : list assessment) (b : bucket) :
  bucket_list (scorer_loop l) b = map gap_info_of (records_in b l).
Proof.
  destruct (scorer_loop_lists l initial_state) as (Hc & Hm & Hn & _).
  destruct b; simpl; unfold scorer_loop; [rewrite Hc | rewrite Hm | rewrite Hn]; reflexivity.
Qed.

Lemma bucket_list_impact (l : list assessment) (b : bucket) (g : gap_info) :
  In g (bucket_list (scorer_loop l) b) -> gi_impact g = impact_label b.
Proof.
  rewrite scorer_loop_buckets, in_map_iff.
  intros (a & <- & Ha). apply records_in_In in Ha. destruct Ha as (_ & <-).
  apply gi_impact_bucket.
Qed.

(** C6.  The three buckets partition the records: each bucket holds, in the
    order of the input, the gap records of the records classified into it;
    together they are a rearrangement of the gap records of the whole input;
    and the gap record of an input record is in the bucket of its
    classification and in no other. *)
Theorem buckets_partition (l : list assessment) :
  (forall b, bucket_list (scorer_loop l) b = map gap_info_of (records_in b l)) /\
  Permutation
    (critical_gaps (scorer_loop l) ++ moderate_gaps (scorer_loop l)
     ++ minor_gaps (scorer_loop l))
    (map gap_info_of l) /\
  (forall a, In a l ->
     forall b, In (gap_info_of a) (bucket_list (scorer_loop l) b) <-> b = bucket_of a) /\
  (forall rep, generate_compliance_report l = Some rep ->
     ga_critical_gaps (rp_gap_analysis rep) = critical_gaps (scorer_loop l) /\
     ga_moderate_gaps (rp_gap_analysis rep) = moderate_gaps (scorer_loop l) /\
     ga_minor_gaps (rp_gap_analysis rep) = minor_gaps (scorer_loop l)).
Proof.
  split; [|split; [|split]].
  - intro b. apply scorer_loop_buckets.
  - change (critical_gaps (scorer_loop l)) with (bucket_list (scorer_loop l) Critical).
    change (moderate_gaps (scorer_loop l)) with (bucket_list (scorer_loop l) Moderate).
    change (minor_gaps (scorer_loop l)) with (bucket_list (scorer_loop l) Minor).
    rewrite !scorer_loop_buckets, <- !map_app.
    apply Permutation_map, records_in_perm.
  - intros a Ha b. split.
    + intro Hin. apply bucket_list_impact in Hin.
      rewrite gi_impact_bucket in Hin. symmetry. apply impact_label_inj, Hin.
    + intros ->. rewrite scorer_loop_buckets. apply in_map.
      apply records_in_In. split; [exact Ha | reflexivity].
  - intros rep Hrep. destruct l as [|a l]; [discriminate Hrep|].
    injection Hrep as <-. repeat split.
Qed.

(** *** Rounding *)

Lemma round_half_even_comp (x y : Q) : x == y -> round_half_even x = round_half_even y.
Proof.
  intro H. unfold round_half_even.
  rewrite (Qfloor_comp _ _ H).
  assert (Hc : Qcompare (x - inject_Z (Qfloor y)) (1 # 2)
               = Qcompare (y - inject_Z (Qfloor y)) (1 # 2))
    by (rewrite H; reflexivity).
  rewrite Hc. reflexivity.
Qed.

Lemma py_round_comp (x y : Q) (n : nat) : x == y -> py_round x n = py_round y n.
Proof.
  intro H. unfold py_round. f_equal. apply round_half_even_comp. rewrite H. reflexivity.
Qed.

Lemma Qlt_bool_comp (x y z : Q) : x == y -> Qlt_bool x z = Qlt_bool y z.
Proof.
  intro H. destruct (Qlt_bool y z) eqn:E.
  - apply Qlt_bool_iff. apply Qlt_bool_iff in E. rewrite H. exact E.
  - apply Qlt_bool_false_iff. apply Qlt_bool_false_iff in E. rewrite H. exact E.
Qed.

Lemma format_fixed_comp (n : nat) (x y : Q) : x == y -> format_fixed n x = format_fixed n y.
Proof.
  intro H. unfold format_fixed.
  rewrite (Qlt_bool_comp x y 0 H).
  rewrite (round_half_even_comp (x * inject_Z (pow10 n)) (y * inject_Z (pow10 n)))
    by (rewrite H; reflexivity).
  reflexivity.
Qed.

(** *** Overall scores *)

Lemma Qsum_nonneg (l : list Q) : (forall x, In x l -> 0 <= x) -> 0 <= Qsum l.
Proof.
  induction l as [|x l IH]; intro H; simpl.
  - lra.
  - assert (0 <= x) by (apply H; left; reflexivity).
    assert (0 <= Qsum l) by (apply IH; intros y Hy; apply H; right; exact Hy).
    unfold Qsum in *. lra.
Qed.

Lemma Qsum_pos (l : list Q) : l <> [] -> (forall x, In x l -> 0 < x) -> 0 < Qsum l.
Proof.
  destruct l as [|x l]; [congruence|]. intros _ H. simpl.
  assert (0 < x) by (apply H; left; reflexivity).
  assert (0 <= Qsum l)
    by (apply Qsum_nonneg; intros y Hy; apply Qlt_le_weak, H; right; exact Hy).
  unfold Qsum in *. lra.
Qed.

Lemma counted_max_pos (l : list assessment) (x : Q) :
  In x (map max_score (filter counted l)) -> 0 < x.
Proof.
  rewrite in_map_iff. intros (a & <- & Ha).
  apply filter_In in Ha. destruct Ha as (_ & Ha). apply Qgt_bool_iff, Ha.
Qed.

Lemma scorer_loop_count (l : list assessment) :
  clause_count (scorer_loop l) = Z.of_nat (List.length l).
Proof.
  destruct (scorer_loop_lists l initial_state) as (_ & _ & _ & _ & H).
  unfold scorer_loop. rewrite H. reflexivity.
Qed.

Lemma scorer_loop_avg_level (l : list assessment) :
  avg_level (scorer_loop l) == mean (map effective_level l).
Proof.
  unfold avg_level, mean. rewrite scorer_loop_count, length_map.
  destruct (scorer_loop_sums l initial_state) as (H & _).
  unfold scorer_loop. rewrite H. simpl total_level_score.
  rewrite Qplus_0_l. reflexivity.
Qed.

Lemma scorer_loop_overall_percentage (l : list assessment) :
  overall_percentage (scorer_loop l) == weighted_percentage l.
Proof.
  unfold overall_percentage, weighted_percentage.
  destruct (scorer_loop_sums l initial_state) as (_ & Hw & Hm).
  fold (scorer_loop l) in Hw, Hm. simpl in Hw, Hm.
  rewrite Qplus_0_l in Hw, Hm.
  pose proof (counted_max_pos l) as Hpos.
  destruct (filter counted l) as [|c cs] eqn:E.
  - assert (Hf : Qgt_bool (total_max_score (scorer_loop l)) 0 = false).
    { apply Qlt_bool_false_iff. rewrite Hm. simpl. lra. }
    rewrite Hf. reflexivity.
  - assert (Ht : Qgt_bool (total_max_score (scorer_loop l)) 0 = true).
    { apply Qgt_bool_iff. rewrite Hm. apply Qsum_pos; [discriminate | exact Hpos]. }
    rewrite Ht, Hw, Hm. reflexivity.
Qed.

Lemma report_scores (l : list assessment) :
  l <> [] ->
  generate_compliance_report l = Some (build_report (scorer_loop l)) /\
  overall_percentage_score (build_report (scorer_loop l)) =
    py_round ((mean (map effective_level l) / 4 * 100) * (3 # 5)
              + weighted_percentage l * (2 # 5)) 1 /\
  overall_maturity_score (build_report (scorer_loop l)) =
    "Level " ++ format_fixed 1 (mean (map effective_level l)).
Proof.
  intro Hne.
  assert (Hcount : (0 <? clause_count (scorer_loop l))%Z = true).
  { rewrite scorer_loop_count. apply Z.ltb_lt. destruct l; [congruence | simpl; lia]. }
  split; [destruct l; [congruence | reflexivity]|].
  cbn [build_report overall_percentage_score overall_maturity_score].
  unfold overall_percentage_score_of, overall_maturity. rewrite Hcount.
  split.
  - apply py_round_comp. unfold combined_score.
    rewrite scorer_loop_avg_level, scorer_loop_overall_percentage. reflexivity.
  - f_equal. apply format_fixed_comp, scorer_loop_avg_level.
Qed.


(** *** Range of the overall score *)

Lemma round_half_even_floor (x : Q) :
  round_half_even x = Qfloor x \/ round_half_even x = (Qfloor x + 1)%Z.
Proof.
  unfold round_half_even.
  destruct (Qcompare (x - inject_Z (Qfloor x)) (1 # 2)); auto.
  destruct (Z.even (Qfloor x)); auto.
Qed.

Lemma round_half_even_ge (n : Z) (x : Q) :
  inject_Z n <= x -> (n <= round_half_even x)%Z.
Proof.
  intro H. apply Qfloor_resp_le in H. rewrite Qfloor_Z in H.
  destruct (round_half_even_floor x) as [-> | ->]; lia.
Qed.

Lemma round_half_even_le (n : Z) (x : Q) :
  x <= inject_Z n -> (round_half_even x <= n)%Z.
Proof.
  intro H.
  assert (Hf : (Qfloor x <= n)%Z).
  { apply Qfloor_resp_le in H. rewrite Qfloor_Z in H. exact H. }
  destruct (Z.eq_dec (Qfloor x) n) as [He | Hne].
  - unfold round_half_even. rewrite He.
    destruct (Qcompare_spec (x - inject_Z n) (1 # 2)) as [E | E | E]; [lra | lia | lra].
  - destruct (round_half_even_floor x) as [-> | ->]; lia.
Qed.

Lemma py_round_1_range (x : Q) : 0 <= x -> x <= 100 -> 0 <= py_round x 1 /\ py_round x 1 <= 100.
Proof.
  intros H0 H100. unfold py_round.
  change (pow10 1) with 10%Z. change (Z.to_pos 10) with 10%positive.
  assert (H1 : (0 <= round_half_even (x * inject_Z 10))%Z).
  { apply round_half_even_ge. change (inject_Z 0) with 0. change (inject_Z 10) with 10. lra. }
  assert (H2 : (round_half_even (x * inject_Z 10) <= 1000)%Z).
  { apply round_half_even_le. change (inject_Z 1000) with 1000.
    change (inject_Z 10) with 10. lra. }
  unfold Qle. simpl. lia.
Qed.

Lemma Qsum_map_le (f g : assessment -> Q) (l : list assessment) :
  (forall a, In a l -> f a <= g a) -> Qsum (map f l) <= Qsum (map g l).
Proof.
  induction l as [|a l IH]; intro H; simpl.
  - lra.
  - assert (f a <= g a) by (apply H; left; reflexivity).
    assert (Qsum (map f l) <= Qsum (map g l))
      by (apply IH; intros b Hb; apply H; right; exact Hb).
    unfold Qsum in *. lra.
Qed.

Lemma Qsum_bounds (lo hi : Q) (l : list Q) :
  (forall x, In x l -> lo <= x /\ x <= hi) ->
  lo * inject_Z (Z.of_nat (List.length l)) <= Qsum l /\
  Qsum l <= hi * inject_Z (Z.of_nat (List.length l)).
Proof.
  induction l as [|x l IH]; intro H.
  - cbn [List.length Z.of_nat Qsum fold_right]. change (inject_Z 0) with 0. lra.
  - assert (Hx : lo <= x /\ x <= hi) by (apply H; left; reflexivity).
    destruct IH as (IHlo & IHhi); [intros y Hy; apply H; right; exact Hy|].
    change (List.length (x :: l)) with (S (List.length l)).
    rewrite Nat2Z.inj_succ. unfold Z.succ. rewrite inject_Z_plus.
    change (Qsum (x :: l)) with (x + Qsum l).
    change (inject_Z 1) with 1. lra.
Qed.

Lemma mean_bounds (lo hi : Q) (l : list Q) :
  l <> [] -> (forall x, In x l -> lo <= x /\ x <= hi) -> lo <= mean l /\ mean l <= hi.
Proof.
  intros Hne H. destruct (Qsum_bounds lo hi l H) as (Hlo & Hhi).
  assert (Hlen : 0 < inject_Z (Z.of_nat (List.length l))).
  { change 0 with (inject_Z 0). rewrite <- Zlt_Qlt.
    destruct l; [congruence | simpl; lia]. }
  unfold mean. split.
  - apply Qle_shift_div_l; assumption.
  - apply Qle_shift_div_r; assumption.
Qed.

Lemma well_formed_effective_level (a : assessment) :
  well_formed a -> 1 <= effective_level a /\ effective_level a <= 4.
Proof.
  intros ((n & Hsel & Hn) & _).
  assert (Hcl : current_level a = n) by (unfold current_level; rewrite Hsel; reflexivity).
  unfold effective_level. rewrite Hcl.
  assert (H1 : inject_Z 1 <= inject_Z n) by (rewrite <- Zle_Qle; lia).
  assert (H4 : inject_Z n <= inject_Z 4) by (rewrite <- Zle_Qle; lia).
  change (inject_Z 1) with 1 in H1. change (inject_Z 4) with 4 in H4.
  destruct (1 <? n)%Z eqn:E; simpl.
  - apply Z.ltb_lt in E.
    assert (H2 : inject_Z 2 <= inject_Z n) by (rewrite <- Zle_Qle; lia).
    change (inject_Z 2) with 2 in H2.
    unfold py_max. q_cases; lra.
  - lra.
Qed.

Lemma well_formed_weighted_percentage (l : list assessment) :
  Forall well_formed l -> 0 <= weighted_percentage l /\ weighted_percentage l <= 100.
Proof.
  intro Hwf. unfold weighted_percentage.
  pose proof (counted_max_pos l) as Hpos.
  assert (Hsub : forall a, In a (filter counted l) -> well_formed a).
  { intros a Ha. apply filter_In in Ha. destruct Ha as (Ha & _).
    rewrite Forall_forall in Hwf. apply Hwf, Ha. }
  destruct (filter counted l) as [|c cs]; [lra|].
  set (cl := c :: cs) in *.
  assert (Hm : 0 < Qsum (map max_score cl)) by (apply Qsum_pos; [discriminate | exact Hpos]).
  assert (Ht : 0 <= Qsum (map total_score cl)).
  { apply Qsum_nonneg. intros x Hx. apply in_map_iff in Hx.
    destruct Hx as (a & <- & Ha). apply (Hsub a Ha). }
  assert (Hle : Qsum (map total_score cl) <= Qsum (map max_score cl)).
  { apply Qsum_map_le. intros a Ha. apply (Hsub a Ha). }
  assert (H0 : 0 <= Qsum (map total_score cl) / Qsum (map max_score cl)).
  { apply Qle_shift_div_l; [exact Hm | lra]. }
  assert (H1 : Qsum (map total_score cl) / Qsum (map max_score cl) <= 1).
  { apply Qle_shift_div_r; [exact Hm | lra]. }
  lra.
Qed.

(** C7.  For a non-empty list of records whose scores are well-formed and in
    range, the report exists and its [overall_percentage_score] lies between
    0 and 100. *)
Theorem overall_percentage_score_range (l : list assessment) :
  l <> [] -> Forall well_formed l ->
  exists rep,
    generate_compliance_report l = Some rep /\
    0 <= overall_percentage_score rep /\ overall_percentage_score rep <= 100.
Proof.
  intros Hne Hwf.
  destruct (report_scores l Hne) as (Hrep & Hscore & _).
  exists (build_report (scorer_loop l)). split; [exact Hrep|]. rewrite Hscore.
  destruct (mean_bounds 1 4 (map effective_level l)) as (Hlo & Hhi).
  - destruct l; [congruence | discriminate].
  - intros x Hx. apply in_map_iff in Hx. destruct Hx as (a & <- & Ha).
    apply well_formed_effective_level. rewrite Forall_forall in Hwf. apply Hwf, Ha.
  - destruct (well_formed_weighted_percentage l Hwf) as (Hp0 & Hp100).
    apply py_round_1_range.
    + assert (0 <= mean (map effective_level l) / 4) by (apply Qle_shift_div_l; lra).
      lra.
    + assert (mean (map effective_level l) / 4 <= 1) by (apply Qle_shift_div_r; lra).
      lra.
Qed.

(** *** Rounding of the effective level *)

Lemma Qfloor_unique (x : Q) (f : Z) :
  inject_Z f <= x -> x < inject_Z (f + 1) -> Qfloor x = f.
Proof.
  intros H1 H2.
  pose proof (Qfloor_le x) as H3. pose proof (Qlt_floor x) as H4.
  assert (Ha : (f < Qfloor x + 1)%Z) by (rewrite Zlt_Qlt; lra).
  assert (Hb : (Qfloor x < f + 1)%Z) by (rewrite Zlt_Qlt; lra).
  lia.
Qed.

Lemma round_half_even_Z (m : Z) : round_half_even (inject_Z m) = m.
Proof.
  unfold round_half_even. rewrite Qfloor_Z.
  destruct (Qcompare_spec (inject_Z m - inject_Z m) (1 # 2)) as [E | E | E];
    [lra | reflexivity | lra].
Qed.

Lemma round_half_even_odd_half (m : Z) :
  Z.even m = false -> round_half_even (inject_Z m + (1 # 2)) = (m + 1)%Z.
Proof.
  intro Hodd. unfold round_half_even.
  assert (Hf : Qfloor (inject_Z m + (1 # 2)) = m).
  { apply Qfloor_unique; [lra|]. rewrite inject_Z_plus. change (inject_Z 1) with 1. lra. }
  rewrite Hf, Hodd.
  destruct (Qcompare_spec (inject_Z m + (1 # 2) - inject_Z m) (1 # 2)) as [E | E | E];
    [reflexivity | lra | reflexivity].
Qed.

(** Moves [inject_Z] to the leaves of an integer expression. *)
Ltac push_inject :=
  unfold Z.sub;
  repeat first [rewrite inject_Z_plus | rewrite inject_Z_mult | rewrite inject_Z_opp];
  change (inject_Z 10) with 10; change (inject_Z 5) with 5; change (inject_Z 3) with 3.

(** The level stored in a gap record: the effective level itself, or 0.05
    above it for an effective level that ends in .75. *)
Lemma gi_current_level_value (a : assessment) :
  (effective_level a == inject_Z (current_level a) - (1 # 4) /\
   gi_current_level (gap_info_of a) == effective_level a + (1 # 20)) \/
  gi_current_level (gap_info_of a) == effective_level a.
Proof.
  cbn [gap_info_of gi_current_level]. unfold py_round.
  change (pow10 1) with 10%Z. change (Z.to_pos 10) with 10%positive.
  set (n := current_level a).
  assert (Hint : forall m : Z, Qmake (round_half_even (inject_Z m)) 10 == inject_Z m / 10).
  { intro m. rewrite round_half_even_Z. apply Qmake_Qdiv. }
  unfold effective_level. fold n.
  destruct ((1 <? n)%Z && Qlt_bool (score_percentage a) 50) eqn:E1;
    [|destruct ((1 <? n)%Z && Qlt_bool (score_percentage a) 75) eqn:E2].
  - right. apply andb_true_iff in E1. destruct E1 as (E1 & _). apply Z.ltb_lt in E1.
    assert (H2 : inject_Z 2 <= inject_Z n) by (rewrite <- Zle_Qle; lia).
    change (inject_Z 2) with 2 in H2.
    assert (Hmax : py_max 1 (inject_Z n - (1 # 2)) = inject_Z n - (1 # 2)).
    { unfold py_max. q_cases; [reflexivity | lra]. }
    rewrite Hmax.
    rewrite (round_half_even_comp _ (inject_Z (10 * n - 5))).
    + rewrite Hint. push_inject. field.
    + push_inject. ring.
  - left. split; [reflexivity|].
    rewrite (round_half_even_comp _ (inject_Z (10 * n - 3) + (1 # 2))).
    + rewrite round_half_even_odd_half.
      * rewrite Qmake_Qdiv. change (inject_Z (Z.pos 10)) with 10. push_inject.
        change (inject_Z 1) with 1. field.
      * rewrite Z.even_sub, Z.even_mul. reflexivity.
    + push_inject. ring.
  - right.
    rewrite (round_half_even_comp _ (inject_Z (10 * n))).
    + rewrite Hint. push_inject. field.
    + push_inject. ring.
Qed.

(** X4.  The timeline of the recommendation of a record is that of its bucket:
    rounding the level to one decimal moves no record across a threshold. *)
Lemma timeline_matches_bucket (a : assessment) :
  rec_timeline (recommendation_of (gap_info_of a)) =
  match bucket_of a with
  | Critical => "6-12 months"
  | Moderate => "3-6 months"
  | Minor => "1-3 months"
  end.
Proof.
  cbn [recommendation_of rec_timeline]. unfold timeline_of, gap_size, bucket_of, gap.
  change (gi_target_level (gap_info_of a)) with target_level.
  change (inject_Z target_level) with 4.
  destruct (gi_current_level_value a) as [(He & Hg) | Hg].
  - set (n := current_level a) in *.
    assert (Hn : (n <= 1)%Z \/ n = 2%Z \/ (3 <= n)%Z) by lia.
    destruct Hn as [Hn | [Hn | Hn]].
    + rewrite Zle_Qle in Hn. change (inject_Z 1) with 1 in Hn.
      q_cases; try reflexivity; lra.
    + rewrite Hn in He. change (inject_Z 2) with 2 in He.
      q_cases; try reflexivity; lra.
    + rewrite Zle_Qle in Hn. change (inject_Z 3) with 3 in Hn.
      q_cases; try reflexivity; lra.
  - q_cases; try reflexivity; lra.
Qed.

(** *** Recommendations *)

Lemma timeline_of_cases (g : Q) :
  (5 # 2 <= g -> timeline_of g = "6-12 months") /\
  (3 # 2 <= g -> g < 5 # 2 -> timeline_of g = "3-6 months") /\
  (g < 3 # 2 -> timeline_of g = "1-3 months").
Proof.
  unfold timeline_of. q_cases; repeat split; intros; try reflexivity; lra.
Qed.

Lemma scorer_loop_all_gaps (l : list assessment) :
  (critical_gaps (scorer_loop l) ++ moderate_gaps (scorer_loop l)
   ++ minor_gaps (scorer_loop l))%list
  = map gap_info_of (records_in Critical l ++ records_in Moderate l ++ records_in Minor l).
Proof.
  rewrite !map_app.
  rewrite <- (scorer_loop_buckets l Critical), <- (scorer_loop_buckets l Moderate),
    <- (scorer_loop_buckets l Minor).
  reflexivity.
Qed.

Lemma gap_info_in_gaps (l : list assessment) (a : assessment) :
  In a l ->
  In (gap_info_of a)
     (critical_gaps (scorer_loop l) ++ moderate_gaps (scorer_loop l)
      ++ minor_gaps (scorer_loop l)).
Proof.
  intro Ha. rewrite scorer_loop_all_gaps. apply in_map.
  apply (Permutation_in _ (Permutation_sym (records_in_perm l))), Ha.
Qed.

(** C8.  The recommendations are the gap records of the critical bucket,
    then of the moderate bucket, then of the minor bucket, one
    recommendation for each and so one for each input record; the timeline
    of a recommendation is "6-12 months" when its gap size (target level
    minus current level) is at least 2.5, "3-6 months" when it is at least
    1.5 and below 2.5, and "1-3 months" otherwise. *)
Theorem recommendations_order_timeline (l : list assessment) (rep : report) :
  generate_compliance_report l = Some rep ->
  recommendations rep =
    map recommendation_of
        (ga_critical_gaps (rp_gap_analysis rep) ++ ga_moderate_gaps (rp_gap_analysis rep)
         ++ ga_minor_gaps (rp_gap_analysis rep)) /\
  map rec_clause (recommendations rep) =
    map clause_num (records_in Critical l ++ records_in Moderate l ++ records_in Minor l) /\
  List.length (recommendations rep) = List.length l /\
  Forall (fun r =>
            let size := inject_Z (rec_target_level r) - rec_current_level r in
            (5 # 2 <= size -> rec_timeline r = "6-12 months") /\
            (3 # 2 <= size -> size < 5 # 2 -> rec_timeline r = "3-6 months") /\
            (size < 3 # 2 -> rec_timeline r = "1-3 months"))
         (recommendations rep).
Proof.
  intro Hrep. destruct l as [|a0 l0]; [discriminate Hrep|].
  injection Hrep as <-. set (l := a0 :: l0).
  cbn [build_report recommendations rp_gap_analysis ga_critical_gaps ga_moderate_gaps
       ga_minor_gaps].
  unfold recommendations_of.
  split; [reflexivity|]. split; [|split].
  - rewrite scorer_loop_all_gaps, !map_map. reflexivity.
  - rewrite scorer_loop_all_gaps, !length_map.
    apply Permutation_length, records_in_perm.
  - apply Forall_forall. intros r Hr. apply in_map_iff in Hr.
    destruct Hr as (g & <- & _). apply (timeline_of_cases (gap_size g)).
Qed.

Lemma action_items_at_level_4 (g : gap_info) :
  gi_selected_level g = 4%Z -> gi_current_level g == 4 ->
  required_actions (gi_gap_details g) = None ->
  practices_to_implement (gi_gap_details g) = None ->
  target_level_description (gi_gap_details g) = None ->
  missing_elements (gi_gap_details g) = None ->
  action_items_of g = [].
Proof.
  intros Hs Hc Hr Hp Ht Hm.
  unfold action_items_of, specific_actions, generic_actions.
  rewrite Hs, Hm. simpl.
  rewrite !(Qlt_bool_comp _ _ _ Hc). reflexivity.
Qed.

Lemma effective_level_at_level_4 (a : assessment) :
  current_level a = 4%Z -> 75 <= score_percentage a -> effective_level a = 4.
Proof.
  intros Hc Hp. unfold effective_level. rewrite Hc.
  assert (H50 : Qlt_bool (score_percentage a) 50 = false)
    by (apply Qlt_bool_false_iff; lra).
  assert (H75 : Qlt_bool (score_percentage a) 75 = false)
    by (apply Qlt_bool_false_iff; lra).
  rewrite H50, H75. reflexivity.
Qed.

(** C10.  A record with selected level 4 and a score percentage of at least
    75 has effective level 4 and gap 0; its gap details carry none of
    [required_actions], [practices_to_implement], [missing_elements] and
    [target_level_description]; and the recommendation generated for it,
    which is in the recommendations of every run over a list that holds the
    record, has an empty list of action items. *)
Theorem no_action_items_at_level_4 (a : assessment) :
  current_level a = 4%Z -> 75 <= score_percentage a ->
  effective_level a == 4 /\ gap a == 0 /\
  required_actions (gi_gap_details (gap_info_of a)) = None /\
  practices_to_implement (gi_gap_details (gap_info_of a)) = None /\
  missing_elements (gi_gap_details (gap_info_of a)) = None /\
  target_level_description (gi_gap_details (gap_info_of a)) = None /\
  rec_action_items (recommendation_of (gap_info_of a)) = [] /\
  (forall l, In a l ->
     In (recommendation_of (gap_info_of a)) (recommendations_of (scorer_loop l))).
Proof.
  intros Hc Hp. pose proof (effective_level_at_level_4 a Hc Hp) as He.
  split; [rewrite He; reflexivity|].
  split; [unfold gap; rewrite He; reflexivity|].
  repeat (split; [reflexivity|]).
  split.
  - cbn [recommendation_of rec_action_items].
    apply action_items_at_level_4; try reflexivity.
    + exact Hc.
    + cbn [gap_info_of gi_current_level]. rewrite He. reflexivity.
  - intros l Ha. unfold recommendations_of. apply in_map, gap_info_in_gaps, Ha.
Qed.

(** *** The per-record roadmap *)

Lemma roadmap_targets (a : assessment) :
  map rs_target_level (roadmap_to_level_4_of a) =
  filter (fun t => (current_level a <? t)%Z && has_level t a) [2; 3; 4]%Z.
Proof.
  unfold roadmap_to_level_4_of, has_level, level_2_data, level_3_data, level_4_data.
  cbn [filter].
  destruct (level_data 2 (maturity_levels a)), (level_data 3 (maturity_levels a)),
    (level_data 4 (maturity_levels a));
    destruct (current_level a <? 2)%Z, (current_level a <? 3)%Z, (current_level a <? 4)%Z;
    reflexivity.
Qed.

Lemma roadmap_step_numbers (a : assessment) (s : roadmap_step) :
  In s (roadmap_to_level_4_of a) ->
  (rs_target_level s = 2%Z -> rs_step s = 1%Z) /\
  (rs_target_level s = 3%Z -> rs_step s = if (current_level a <? 2)%Z then 2%Z else 1%Z) /\
  (rs_target_level s = 4%Z ->
     ((current_level a < 2)%Z -> rs_step s = 3%Z) /\
     (current_level a = 3%Z -> rs_step s = 1%Z)).
Proof.
  unfold roadmap_to_level_4_of. intro H.
  apply in_app_or in H. destruct H as [H | H]; [|apply in_app_or in H; destruct H as [H | H]].
  - destruct (level_2_data a); [|contradiction].
    destruct (current_level a <? 2)%Z; [|contradiction].
    destruct H as [<- | []]. simpl. repeat split; intros; try reflexivity; discriminate.
  - destruct (level_3_data a); [|contradiction].
    destruct (current_level a <? 3)%Z; [|contradiction].
    destruct H as [<- | []]. simpl. repeat split; intros; try reflexivity; discriminate.
  - destruct (level_4_data a); [|contradiction].
    destruct (current_level a <? 4)%Z; [|contradiction].
    destruct H as [<- | []]. simpl. repeat split; intros; try discriminate.
    + assert (E : (current_level a <? 3)%Z = true) by (apply Z.ltb_lt; lia).
      rewrite E. reflexivity.
    + assert (E3 : (current_level a <? 3)%Z = false) by (apply Z.ltb_ge; lia).
      assert (E2 : (current_level a <? 2)%Z = false) by (apply Z.ltb_ge; lia).
      rewrite E3, E2. reflexivity.
Qed.

Lemma effective_level_one_and_a_half (a : assessment) :
  effective_level a == 3 # 2 -> current_level a = 2%Z.
Proof.
  unfold effective_level, py_max.
  destruct (1 <? current_level a)%Z eqn:Ec; cbn [andb].
  - apply Z.ltb_lt in Ec.
    assert (H2 : inject_Z 2 <= inject_Z (current_level a)) by (rewrite <- Zle_Qle; lia).
    change (inject_Z 2) with 2 in H2.
    q_cases; intro H.
    + assert (Hq : inject_Z (current_level a) == inject_Z 2)
        by (change (inject_Z 2) with 2; lra).
      unfold Qeq in Hq. simpl in Hq. lia.
    + lra.
    + assert (Hq : inject_Z (current_level a) == 7 # 4) by lra.
      unfold Qeq in Hq. simpl in Hq. lia.
    + lra.
  - intro H. unfold Qeq in H. simpl in H. lia.
Qed.

(** C2, amended.  The roadmap of a record has a step for the target level
    [t] among 2, 3, 4 exactly when [current_level < t], the selected level
    and not the effective level, and the [maturity_levels] entry for [t]
    exists; the steps come in increasing target order.  The step for
    target 2 is numbered 1; the step for target 3 is numbered 2 when
    [current_level < 2] and 1 otherwise; the step for target 4 is numbered 3
    when [current_level < 2] and 1 when [current_level = 3].  A record with
    [current_level < 2] and entries for the levels 2, 3, 4 has the steps to
    2, 3, 4 numbered 1, 2, 3; a record at effective level 1.5 has selected
    level 2 and no step for target 2. *)
Theorem roadmap_to_level_4_steps (a : assessment) :
  roadmap_to_level_4 (gi_gap_details (gap_info_of a)) = roadmap_to_level_4_of a /\
  map rs_target_level (roadmap_to_level_4_of a) =
    filter (fun t => (current_level a <? t)%Z && has_level t a) [2; 3; 4]%Z /\
  (forall t, In t [2; 3; 4]%Z ->
     ((exists s, In s (roadmap_to_level_4_of a) /\ rs_target_level s = t) <->
      (current_level a < t)%Z /\ has_level t a = true)) /\
  (forall s, In s (roadmap_to_level_4_of a) ->
     (rs_target_level s = 2%Z -> rs_step s = 1%Z) /\
     (rs_target_level s = 3%Z ->
        rs_step s = if (current_level a <? 2)%Z then 2%Z else 1%Z) /\
     (rs_target_level s = 4%Z ->
        ((current_level a < 2)%Z -> rs_step s = 3%Z) /\
        (current_level a = 3%Z -> rs_step s = 1%Z))) /\
  ((current_level a < 2)%Z ->
   has_level 2 a = true -> has_level 3 a = true -> has_level 4 a = true ->
   step_numbers (roadmap_to_level_4_of a) = [(1, 2); (2, 3); (3, 4)]%Z) /\
  (effective_level a == 3 # 2 ->
   current_level a = 2%Z /\
   ~ exists s, In s (roadmap_to_level_4_of a) /\ rs_target_level s = 2%Z).
Proof.
  assert (Hiff : forall t,
            (exists s, In s (roadmap_to_level_4_of a) /\ rs_target_level s = t) <->
            In t [2; 3; 4]%Z /\ (current_level a < t)%Z /\ has_level t a = true).
  { intro t. split.
    - intros (s & Hs & <-).
      pose proof (in_map rs_target_level _ _ Hs) as H.
      rewrite roadmap_targets in H. apply filter_In in H. destruct H as (Hin & Hb).
      apply andb_true_iff in Hb. destruct Hb as (Hlt & Hh). apply Z.ltb_lt in Hlt.
      repeat split; assumption.
    - intros (Hin & Hlt & Hh).
      assert (H : In t (map rs_target_level (roadmap_to_level_4_of a))).
      { rewrite roadmap_targets. apply filter_In. split; [exact Hin|].
        apply andb_true_iff. split; [apply Z.ltb_lt, Hlt | exact Hh]. }
      apply in_map_iff in H. destruct H as (s & Hs1 & Hs2).
      exists s. split; assumption. }
  split; [reflexivity|]. split; [apply roadmap_targets|].
  split; [|split; [|split]].
  - intros t Ht. rewrite Hiff. tauto.
  - apply roadmap_step_numbers.
  - intros Hc H2 H3 H4. unfold has_level in H2, H3, H4.
    unfold step_numbers, roadmap_to_level_4_of, level_2_data, level_3_data, level_4_data.
    destruct (level_data 2 (maturity_levels a)); [|discriminate].
    destruct (level_data 3 (maturity_levels a)); [|discriminate].
    destruct (level_data 4 (maturity_levels a)); [|discriminate].
    assert (E2 : (current_level a <? 2)%Z = true) by (apply Z.ltb_lt; lia).
    assert (E3 : (current_level a <? 3)%Z = true) by (apply Z.ltb_lt; lia).
    assert (E4 : (current_level a <? 4)%Z = true) by (apply Z.ltb_lt; lia).
    rewrite E2, E3, E4. reflexivity.
  - intro He. apply effective_level_one_and_a_half in He. split; [exact He|].
    rewrite Hiff, He. intros (_ & Hlt & _). lia.
Qed.

(** *** The empty list *)

(** C1, amended.  For an empty list of records the routine returns [None],
    no report, and does not fail; the defaults "Level 1.0", 0 and 0 clauses
    are those of the report of a run that counted no clause, which the guard
    on the empty list keeps from being built. *)
Theorem empty_list_returns_none :
  generate_compliance_report [] = None /\
  overall_maturity_score (build_report (scorer_loop [])) = "Level 1.0" /\
  overall_percentage_score (build_report (scorer_loop [])) = 0 /\
  total_clauses (build_report (scorer_loop [])) = 0%Z.
Proof. repeat split. Qed.

(** *** Determinism and the caller's list *)

Lemma nth_error_skipn (s : store) (i : nat) (a : assessment) :
  nth_error s i = Some a -> skipn i s = a :: skipn (S i) s.
Proof.
  revert i. induction s as [|b s IH]; intros [|i] H; simpl in H; try discriminate.
  - injection H as ->. reflexivity.
  - apply (IH i H).
Qed.

(** The loop reads the store and leaves it as it was: its result is the
    fold of [scorer_step] over the records from index [i] on. *)
Lemma for_each_run (fuel i : nat) (st : scorer_state) (s : store) :
  for_each fuel i st s = (fold_left scorer_step (firstn fuel (skipn i s)) st, s).
Proof.
  revert i st. induction fuel as [|fuel IH]; intros i st; [reflexivity|].
  cbn [for_each]. unfold bind, load_item.
  destruct (nth_error s i) as [a|] eqn:E.
  - rewrite IH, (nth_error_skipn s i a E). reflexivity.
  - apply nth_error_None in E. rewrite (skipn_all2 s E). reflexivity.
Qed.

Lemma generate_run (s : store) :
  generate_compliance_report_run s = (generate_compliance_report s, s).
Proof.
  unfold generate_compliance_report_run, bind, load_length.
  destruct (List.length s =? 0)%nat eqn:E.
  - apply Nat.eqb_eq, length_zero_iff_nil in E. subst s. reflexivity.
  - unfold ret. rewrite for_each_run. cbn [skipn]. rewrite firstn_all.
    destruct s; [discriminate E | reflexivity].
Qed.


(** *** Further properties of the routine *)

(** X1.  For a non-empty list the report counts every record:
    [total_clauses] is the number of records, [assessed_clauses] holds the
    gap record of each record in the order of the input, and the sizes of
    the three buckets add up to the number of records. *)
Theorem report_counts_every_record (l : list assessment) :
  l <> [] ->
  exists rep,
    generate_compliance_report l = Some rep /\
    total_clauses rep = Z.of_nat (List.length l) /\
    rp_assessed_clauses rep = map gap_info_of l /\
    (List.length (ga_critical_gaps (rp_gap_analysis rep))
     + List.length (ga_moderate_gaps (rp_gap_analysis rep))
     + List.length (ga_minor_gaps (rp_gap_analysis rep)) = List.length l)%nat.
Proof.
  intro Hne. exists (build_report (scorer_loop l)).
  split; [destruct l; [congruence | reflexivity]|].
  cbn [build_report total_clauses rp_assessed_clauses rp_gap_analysis
       ga_critical_gaps ga_moderate_gaps ga_minor_gaps].
  split; [apply scorer_loop_count|]. split.
  - destruct (scorer_loop_lists l initial_state) as (_ & _ & _ & H & _).
    unfold scorer_loop. rewrite H. reflexivity.
  - pose proof (f_equal (@List.length gap_info) (scorer_loop_all_gaps l)) as H.
    rewrite !length_app, length_map in H.
    rewrite (Permutation_length (records_in_perm l)) in H. lia.
Qed.

(** The range of the effective level around the selected level. *)
Lemma effective_level_range (a : assessment) :
  inject_Z (current_level a) - (1 # 2) <= effective_level a /\
  effective_level a <= inject_Z (current_level a) /\
  ((1 <= current_level a)%Z -> 1 <= effective_level a).
Proof.
  unfold effective_level, py_max.
  destruct (1 <? current_level a)%Z eqn:Ec; cbn [andb].
  - apply Z.ltb_lt in Ec.
    assert (H2 : inject_Z 2 <= inject_Z (current_level a)) by (rewrite <- Zle_Qle; lia).
    change (inject_Z 2) with 2 in H2.
    q_cases; repeat split; intros; lra.
  - apply Z.ltb_ge in Ec. repeat split; try lra.
    intro H1. rewrite Zle_Qle in H1. exact H1.
Qed.

(** X2.  The effective level never exceeds the selected level, lies at most
    half a level below it, and is at least 1 whenever the selected level is
    at least 1. *)
Theorem effective_level_bounds (a : assessment) :
  inject_Z (current_level a) - (1 # 2) <= effective_level a /\
  effective_level a <= inject_Z (current_level a) /\
  ((1 <= current_level a)%Z -> 1 <= effective_level a).
Proof.
  apply effective_level_range.
Qed.

(** X3.  The effective level is monotone: of two records, the one with the
    higher selected level and the higher score percentage has the higher
    effective level. *)
Theorem effective_level_monotone (a b : assessment) :
  (current_level a <= current_level b)%Z ->
  score_percentage a <= score_percentage b ->
  effective_level a <= effective_level b.
Proof.
  intros Hc Hp. unfold effective_level, py_max.
  assert (Hq : inject_Z (current_level a) <= inject_Z (current_level b))
    by (rewrite <- Zle_Qle; exact Hc).
  destruct (1 <? current_level a)%Z eqn:Ea; destruct (1 <? current_level b)%Z eqn:Eb;
    cbn [andb].
  - apply Z.ltb_lt in Ea. apply Z.ltb_lt in Eb.
    assert (Ha2 : inject_Z 2 <= inject_Z (current_level a)) by (rewrite <- Zle_Qle; lia).
    change (inject_Z 2) with 2 in Ha2.
    q_cases; lra.
  - apply Z.ltb_lt in Ea. apply Z.ltb_ge in Eb. lia.
  - apply Z.ltb_ge in Ea. apply Z.ltb_lt in Eb.
    assert (Ha1 : inject_Z (current_level a) <= inject_Z 1) by (rewrite <- Zle_Qle; lia).
    assert (Hb2 : inject_Z 2 <= inject_Z (current_level b)) by (rewrite <- Zle_Qle; lia).
    change (inject_Z 1) with 1 in Ha1. change (inject_Z 2) with 2 in Hb2.
    q_cases; lra.
  - exact Hq.
Qed.

Lemma Qlt_bool_inject_Z (x y : Z) : Qlt_bool (inject_Z x) (inject_Z y) = (x <? y)%Z.
Proof.
  destruct (x <? y)%Z eqn:E.
  - apply Qlt_bool_iff. rewrite <- Zlt_Qlt. apply Z.ltb_lt, E.
  - apply Qlt_bool_false_iff. rewrite <- Zle_Qle. apply Z.ltb_ge, E.
Qed.

Lemma specific_actions_length (a : assessment) :
  List.length (specific_actions (gap_info_of a)) =
  ((if (current_level a <? 2)%Z then 1 else 0)
   + (if (current_level a <? 3)%Z then 1 else 0)
   + (if (current_level a <? 4)%Z then 1 else 0))%nat.
Proof.
  unfold specific_actions.
  cbn [gap_info_of gi_gap_details gi_selected_level gi_clause_name gap_details_of
       required_actions practices_to_implement target_level_description
       missing_elements nonempty_list filter map].
  change 2 with (inject_Z 2). change 3 with (inject_Z 3). change 4 with (inject_Z 4).
  rewrite !Qlt_bool_inject_Z.
  destruct (current_level a <? 2)%Z, (current_level a <? 3)%Z, (current_level a <? 4)%Z;
    reflexivity.
Qed.

Lemma generic_actions_above_3 (g : gap_info) :
  7 # 2 <= gi_current_level g ->
  List.length (generic_actions g) = if Qlt_bool (gi_current_level g) 4 then 1%nat else 0%nat.
Proof.
  intro H. unfold generic_actions.
  assert (H2 : Qlt_bool (gi_current_level g) 2 = false) by (apply Qlt_bool_false_iff; lra).
  assert (H3 : Qlt_bool (gi_current_level g) 3 = false) by (apply Qlt_bool_false_iff; lra).
  rewrite H2, H3. destruct (Qlt_bool (gi_current_level g) 4); reflexivity.
Qed.

(** At selected level 4 or above, the stored level is below 4 exactly when
    the effective level is. *)
Lemma stored_level_below_4 (a : assessment) :
  (4 <= current_level a)%Z ->
  7 # 2 <= gi_current_level (gap_info_of a) /\
  Qlt_bool (gi_current_level (gap_info_of a)) 4 = Qlt_bool (effective_level a) 4.
Proof.
  intro Hc. destruct (effective_level_range a) as (Hlo & Hhi & _).
  assert (H4 : inject_Z 4 <= inject_Z (current_level a)) by (rewrite <- Zle_Qle; exact Hc).
  change (inject_Z 4) with 4 in H4.
  destruct (gi_current_level_value a) as [(He & Hg) | Hg].
  - split; [lra|].
    assert (Hn : current_level a = 4%Z \/ (5 <= current_level a)%Z) by lia.
    destruct Hn as [Hn | Hn].
    + rewrite Hn in He. change (inject_Z 4) with 4 in He.
      assert (E1 : Qlt_bool (gi_current_level (gap_info_of a)) 4 = true)
        by (apply Qlt_bool_iff; lra).
      assert (E2 : Qlt_bool (effective_level a) 4 = true)
        by (apply Qlt_bool_iff; lra).
      rewrite E1, E2. reflexivity.
    + rewrite Zle_Qle in Hn. change (inject_Z 5) with 5 in Hn.
      assert (E1 : Qlt_bool (gi_current_level (gap_info_of a)) 4 = false)
        by (apply Qlt_bool_false_iff; lra).
      assert (E2 : Qlt_bool (effective_level a) 4 = false)
        by (apply Qlt_bool_false_iff; lra).
      rewrite E1, E2. reflexivity.
  - split; [lra|]. apply Qlt_bool_comp, Hg.
Qed.

(** X5.  The recommendation of a record has one action item for each level
    between its selected level and level 4; at selected level 4 or above it
    has the single generic item when the effective level is below 4, and
    none otherwise.  So the list of action items is empty exactly when both
    the selected level and the effective level are at least 4. *)
Theorem action_items_count (a : assessment) :
  List.length (rec_action_items (recommendation_of (gap_info_of a))) =
    (if (current_level a <? 4)%Z then levels_to_go a
     else if Qlt_bool (effective_level a) 4 then 1%nat else 0%nat) /\
  (rec_action_items (recommendation_of (gap_info_of a)) = [] <->
   (4 <= current_level a)%Z /\ 4 <= effective_level a).
Proof.
  cbn [recommendation_of rec_action_items].
  pose proof (specific_actions_length a) as Hs.
  assert (Hlen : List.length (action_items_of (gap_info_of a))
                 = if (current_level a <? 4)%Z then levels_to_go a
                   else if Qlt_bool (effective_level a) 4 then 1%nat else 0%nat).
  { unfold action_items_of. destruct (current_level a <? 4)%Z eqn:E4.
    - apply Z.ltb_lt in E4.
      assert (Hgo : List.length (specific_actions (gap_info_of a)) = levels_to_go a).
      { rewrite Hs. unfold levels_to_go, target_level.
        destruct (current_level a <? 2)%Z eqn:E2; destruct (current_level a <? 3)%Z eqn:E3;
          try apply Z.ltb_lt in E2; try apply Z.ltb_ge in E2;
          try apply Z.ltb_lt in E3; try apply Z.ltb_ge in E3;
          cbn [Nat.add]; lia. }
      destruct (specific_actions (gap_info_of a)) as [|x xs]; [|exact Hgo].
      cbn [List.length] in Hgo. unfold levels_to_go, target_level in Hgo. lia.
    - apply Z.ltb_ge in E4.
      assert (E2 : (current_level a <? 2)%Z = false) by (apply Z.ltb_ge; lia).
      assert (E3 : (current_level a <? 3)%Z = false) by (apply Z.ltb_ge; lia).
      rewrite E2, E3 in Hs. cbn [Nat.add] in Hs.
      destruct (specific_actions (gap_info_of a)); [|discriminate Hs].
      destruct (stored_level_below_4 a E4) as (H35 & Hlt).
      rewrite (generic_actions_above_3 _ H35), Hlt. reflexivity. }
  split; [exact Hlen|].
  rewrite <- length_zero_iff_nil, Hlen.
  destruct (current_level a <? 4)%Z eqn:E4.
  - apply Z.ltb_lt in E4. unfold levels_to_go, target_level. split; intro H; lia.
  - apply Z.ltb_ge in E4. destruct (Qlt_bool (effective_level a) 4) eqn:E.
    + apply Qlt_bool_iff in E. split; [discriminate|]. intros (_ & H). lra.
    + apply Qlt_bool_false_iff in E. split; [|reflexivity]. intros _. split; assumption.
Qed.

(** *** Roadmap phases and priority matrix *)

Lemma gi_clause_gap_info (l : list assessment) :
  map gi_clause (map gap_info_of l) = map clause_num l.
Proof. rewrite map_map. reflexivity. Qed.

Lemma clause_label_gap_info (l : list assessment) :
  map clause_label (map gap_info_of l) = map record_label l.
Proof. rewrite map_map. reflexivity. Qed.

Lemma scorer_loop_critical (l : list assessment) :
  critical_gaps (scorer_loop l) = map gap_info_of (records_in Critical l).
Proof. apply (scorer_loop_buckets l Critical). Qed.

Lemma scorer_loop_moderate (l : list assessment) :
  moderate_gaps (scorer_loop l) = map gap_info_of (records_in Moderate l).
Proof. apply (scorer_loop_buckets l Moderate). Qed.

Lemma scorer_loop_minor (l : list assessment) :
  minor_gaps (scorer_loop l) = map gap_info_of (records_in Minor l).
Proof. apply (scorer_loop_buckets l Minor). Qed.

Lemma incl_firstn {A : Type} (n : nat) (l : list A) : incl (firstn n l) l.
Proof.
  intros x Hx. rewrite <- (firstn_skipn n l). apply in_or_app. left. exact Hx.
Qed.

(** X6.  The three phases of the report's roadmap nest: phase 1 lists the
    clause numbers of the first five critical and the first three moderate
    records, at most eight, all of which are in phase 2; phase 2 lists the
    critical and moderate records and is the front of phase 3; phase 3
    lists the clause number of every record once. *)
Theorem roadmap_phases_nest (l : list assessment) (rep : report) :
  generate_compliance_report l = Some rep ->
  ph_clauses (phase_1 (rp_roadmap_to_level_4 rep)) =
    map clause_num (firstn 5 (records_in Critical l) ++ firstn 3 (records_in Moderate l)) /\
  (List.length (ph_clauses (phase_1 (rp_roadmap_to_level_4 rep))) <= 8)%nat /\
  incl (ph_clauses (phase_1 (rp_roadmap_to_level_4 rep)))
       (ph_clauses (phase_2 (rp_roadmap_to_level_4 rep))) /\
  ph_clauses (phase_3 (rp_roadmap_to_level_4 rep)) =
    (ph_clauses (phase_2 (rp_roadmap_to_level_4 rep))
     ++ map clause_num (records_in Minor l))%list /\
  Permutation (ph_clauses (phase_3 (rp_roadmap_to_level_4 rep))) (map clause_num l).
Proof.
  intro Hrep. destruct l as [|a0 l0]; [discriminate Hrep|].
  injection Hrep as <-. set (l := a0 :: l0).
  cbn [build_report rp_roadmap_to_level_4 roadmap_of phase_1 phase_2 phase_3 ph_clauses].
  rewrite scorer_loop_critical, scorer_loop_moderate, scorer_loop_minor.
  assert (H1 : map gi_clause
                 (firstn 5 (map gap_info_of (records_in Critical l))
                  ++ firstn 3 (map gap_info_of (records_in Moderate l)))
               = map clause_num
                   (firstn 5 (records_in Critical l) ++ firstn 3 (records_in Moderate l))).
  { rewrite !firstn_map, <- map_app. apply gi_clause_gap_info. }
  split; [exact H1|]. split; [|split; [|split]].
  - rewrite H1, length_map, length_app.
    pose proof (firstn_le_length 5 (records_in Critical l)).
    pose proof (firstn_le_length 3 (records_in Moderate l)). lia.
  - rewrite !map_app. apply incl_app.
    + apply incl_appl. intros x Hx. apply in_map_iff in Hx.
      destruct Hx as (g & <- & Hg). apply in_map. apply (incl_firstn 5 _ _ Hg).
    + apply incl_appr. intros x Hx. apply in_map_iff in Hx.
      destruct Hx as (g & <- & Hg). apply in_map. apply (incl_firstn 3 _ _ Hg).
  - rewrite !map_app, !gi_clause_gap_info, app_assoc. reflexivity.
  - rewrite <- !map_app, gi_clause_gap_info.
    apply Permutation_map, records_in_perm.
Qed.

(** X7.  The priority matrix of the report lists, by their labels
    "number - name" and in the order of the input, the first five minor
    records as quick wins, the first five critical records as strategic
    initiatives and the first five moderate records as foundational
    requirements. *)
Theorem priority_matrix_entries (l : list assessment) (rep : report) :
  generate_compliance_report l = Some rep ->
  quick_wins (rp_priority_matrix rep) = map record_label (firstn 5 (records_in Minor l)) /\
  strategic_initiatives (rp_priority_matrix rep)
    = map record_label (firstn 5 (records_in Critical l)) /\
  foundational_requirements (rp_priority_matrix rep)
    = map record_label (firstn 5 (records_in Moderate l)) /\
  (List.length (quick_wins (rp_priority_matrix rep)) <= 5)%nat /\
  (List.length (strategic_initiatives (rp_priority_matrix rep)) <= 5)%nat /\
  (List.length (foundational_requirements (rp_priority_matrix rep)) <= 5)%nat.
Proof.
  intro Hrep. destruct l as [|a0 l0]; [discriminate Hrep|].
  injection Hrep as <-. set (l := a0 :: l0).
  cbn [build_report rp_priority_matrix priority_matrix_of quick_wins
       strategic_initiatives foundational_requirements].
  rewrite scorer_loop_critical, scorer_loop_moderate, scorer_loop_minor.
  rewrite !firstn_map, !clause_label_gap_info.
  repeat split; try reflexivity;
    rewrite length_map; apply firstn_le_length.
Qed.

(** *** The clause string *)

Lemma before_after_space (s : string) :
  has_space s = true ->
  s = before_space s ++ " " ++ after_space s /\ has_space (before_space s) = false.
Proof.
  induction s as [|c s IH]; intro H; [discriminate H|].
  cbn [has_space before_space after_space] in *.
  destruct (Ascii.eqb c " "%char) eqn:E.
  - apply Ascii.eqb_eq in E. subst c. split; reflexivity.
  - destruct (IH H) as (IH1 & IH2). split.
    + cbn [append]. f_equal. exact IH1.
    + cbn [has_space]. rewrite E. exact IH2.
Qed.

(** X8.  A clause string with a space is its number, a space and its name,
    and the number holds no space; a clause string without a space is both
    the number and the name. *)
Theorem clause_number_and_name (a : assessment) :
  (has_space (clause a) = true ->
     clause a = clause_num a ++ " " ++ clause_name a /\
     has_space (clause_num a) = false) /\
  (has_space (clause a) = false ->
     clause_num a = clause a /\ clause_name a = clause a).
Proof.
  unfold clause_num, clause_name. split; intro H; rewrite H.
  - apply before_after_space, H.
  - split; reflexivity.
Qed.

(** *** Level entries *)

Lemma level_data_from (n : Z) (mls : list maturity_level) (acc : option maturity_level) :
  let step := fun acc ml => if py_eq_int (level ml) n then Some ml else acc in
  (forall ml, In ml mls -> py_eq_int (level ml) n = false) /\ fold_left step mls acc = acc
  \/
  exists pre ml post,
    mls = (pre ++ ml :: post)%list /\ py_eq_int (level ml) n = true /\
    (forall x, In x post -> py_eq_int (level x) n = false) /\
    fold_left step mls acc = Some ml.
Proof.
  cbv zeta. revert acc. induction mls as [|m mls IH]; intro acc.
  - left. split; [intros ml []|reflexivity].
  - cbn [fold_left].
    destruct (IH (if py_eq_int (level m) n then Some m else acc))
      as [(Hno & Hf) | (pre & ml & post & -> & Hml & Hpost & Hf)].
    + destruct (py_eq_int (level m) n) eqn:E.
      * right. exists [], m, mls. repeat split; assumption.
      * left. split; [|exact Hf]. intros ml [<- | Hin]; [exact E | apply Hno, Hin].
    + right. exists (m :: pre), ml, post. repeat split; assumption.
Qed.

(** X9.  Looking a level up in [maturity_levels] finds nothing exactly when
    no entry has that level, and otherwise finds the last entry that has
    it. *)
Theorem level_data_last_match (n : Z) (mls : list maturity_level) :
  (level_data n mls = None <-> forall ml, In ml mls -> py_eq_int (level ml) n = false) /\
  (forall ml, level_data n mls = Some ml ->
     exists pre post,
       mls = (pre ++ ml :: post)%list /\ py_eq_int (level ml) n = true /\
       forall x, In x post -> py_eq_int (level x) n = false).
Proof.
  unfold level_data.
  destruct (level_data_from n mls None)
    as [(Hno & Hf) | (pre & ml & post & Hmls & Hml & Hpost & Hf)]; cbv zeta in *.
  - rewrite Hf. split; [split; [intros _; exact Hno | reflexivity]|].
    intros ml H. discriminate H.
  - rewrite Hf. split.
    + split; [discriminate|]. intro Hno.
      assert (Hin : In ml mls) by (rewrite Hmls; apply in_or_app; right; left; reflexivity).
      rewrite (Hno ml Hin) in Hml. discriminate Hml.
    + intros ml' H. injection H as <-. exists pre, post. repeat split; assumption.
Qed.


(** *** Extremes of the overall score *)

Lemma mean_const (c : Q) (l : list Q) :
  l <> [] -> (forall x, In x l -> x == c) -> mean l == c.
Proof.
  intros Hne H.
  destruct (mean_bounds c c l Hne) as (Hlo & Hhi).
  - intros x Hx. rewrite (H x Hx). split; lra.
  - lra.
Qed.

Lemma mean_lower (lo : Q) (l : list Q) :
  l <> [] -> (forall x, In x l -> lo <= x) -> lo <= mean l.
Proof.
  intros Hne H.
  assert (Hsum : lo * inject_Z (Z.of_nat (List.length l)) <= Qsum l).
  { clear Hne. induction l as [|x l IH].
    - cbn [List.length Z.of_nat Qsum fold_right]. change (inject_Z 0) with 0. lra.
    - assert (Hx : lo <= x) by (apply H; left; reflexivity).
      assert (IH' : lo * inject_Z (Z.of_nat (List.length l)) <= Qsum l)
        by (apply IH; intros y Hy; apply H; right; exact Hy).
      change (List.length (x :: l)) with (S (List.length l)).
      rewrite Nat2Z.inj_succ. unfold Z.succ. rewrite inject_Z_plus.
      change (Qsum (x :: l)) with (x + Qsum l).
      change (inject_Z 1) with 1. lra. }
  assert (Hlen : 0 < inject_Z (Z.of_nat (List.length l))).
  { change 0 with (inject_Z 0). rewrite <- Zlt_Qlt.
    destruct l; [congruence | simpl; lia]. }
  unfold mean. apply Qle_shift_div_l; assumption.
Qed.

Lemma weighted_percentage_nonneg (l : list assessment) :
  (forall a, In a l -> 0 <= total_score a) -> 0 <= weighted_percentage l.
Proof.
  intro H. unfold weighted_percentage.
  pose proof (counted_max_pos l) as Hpos.
  assert (Hsub : forall a, In a (filter counted l) -> 0 <= total_score a).
  { intros a Ha. apply filter_In in Ha. apply H, Ha. }
  destruct (filter counted l) as [|c cs]; [lra|].
  set (cl := c :: cs) in *.
  assert (Hm : 0 < Qsum (map max_score cl)) by (apply Qsum_pos; [discriminate | exact Hpos]).
  assert (Ht : 0 <= Qsum (map total_score cl)).
  { apply Qsum_nonneg. intros x Hx. apply in_map_iff in Hx.
    destruct Hx as (a & <- & Ha). apply (Hsub a Ha). }
  assert (H0 : 0 <= Qsum (map total_score cl) / Qsum (map max_score cl)).
  { apply Qle_shift_div_l; [exact Hm | lra]. }
  lra.
Qed.

Lemma weighted_percentage_full (l : list assessment) :
  l <> [] ->
  (forall a, In a l -> 0 < max_score a /\ total_score a == max_score a) ->
  weighted_percentage l == 100.
Proof.
  intros Hne H. unfold weighted_percentage.
  assert (Hall : filter counted l = l).
  { apply forallb_filter_id. apply forallb_forall. intros a Ha.
    apply Qgt_bool_iff. apply (H a Ha). }
  rewrite Hall. destruct l as [|c cs]; [congruence|].
  set (cl := c :: cs) in *.
  assert (Hm : 0 < Qsum (map max_score cl)).
  { apply Qsum_pos; [discriminate|]. intros x Hx. apply in_map_iff in Hx.
    destruct Hx as (a & <- & Ha). apply (H a Ha). }
  assert (H1 : Qsum (map total_score cl) <= Qsum (map max_score cl)).
  { apply Qsum_map_le. intros a Ha. destruct (H a Ha) as (_ & He). rewrite He. lra. }
  assert (H2 : Qsum (map max_score cl) <= Qsum (map total_score cl)).
  { apply Qsum_map_le. intros a Ha. destruct (H a Ha) as (_ & He). rewrite He. lra. }
  assert (He : Qsum (map total_score cl) == Qsum (map max_score cl)) by lra.
  rewrite He. field. lra.
Qed.

Lemma weighted_percentage_unscored (l : list assessment) :
  (forall a, In a l -> max_score a <= 0) -> weighted_percentage l = 0.
Proof.
  intro H. unfold weighted_percentage.
  assert (Hnone : filter counted l = []).
  { induction l as [|a l IH]; [reflexivity|]. cbn [filter].
    assert (E : counted a = false).
    { apply Qlt_bool_false_iff. apply H. left. reflexivity. }
    rewrite E. apply IH. intros b Hb. apply H. right. exact Hb. }
  rewrite Hnone. reflexivity.
Qed.

(** X11.  An assessment with every clause at selected level 4, at least 75%
    of the practices and all of the available points scores 100 and is
    labelled "Level 4.0". *)
Theorem full_marks_score_100 (l : list assessment) :
  l <> [] ->
  (forall a, In a l ->
     current_level a = 4%Z /\ 75 <= score_percentage a /\
     0 < max_score a /\ total_score a == max_score a) ->
  exists rep,
    generate_compliance_report l = Some rep /\
    overall_percentage_score rep == 100 /\
    overall_maturity_score rep = "Level 4.0".
Proof.
  intros Hne H.
  destruct (report_scores l Hne) as (Hrep & Hscore & Hlabel).
  exists (build_report (scorer_loop l)). split; [exact Hrep|].
  assert (Hmean : mean (map effective_level l) == 4).
  { apply mean_const; [destruct l; [congruence | discriminate]|].
    intros x Hx. apply in_map_iff in Hx. destruct Hx as (a & <- & Ha).
    destruct (H a Ha) as (Hc & Hp & _).
    rewrite (effective_level_at_level_4 a Hc Hp). reflexivity. }
  assert (Hpct : weighted_percentage l == 100).
  { apply weighted_percentage_full; [exact Hne|]. intros a Ha. apply (H a Ha). }
  split.
  - rewrite Hscore. rewrite (py_round_comp _ 100 1).
    + reflexivity.
    + rewrite Hmean, Hpct. reflexivity.
  - rewrite Hlabel, (format_fixed_comp 1 _ 4 Hmean). reflexivity.
Qed.

(** X12.  An assessment whose clauses are all at selected level 1 or above
    and hold no negative points scores at least 15; it scores exactly 15,
    labelled "Level 1.0", when every clause is at level 1 and none has
    points to count. *)
Theorem score_floor_15 (l : list assessment) :
  l <> [] ->
  (forall a, In a l -> (1 <= current_level a)%Z /\ 0 <= total_score a) ->
  exists rep,
    generate_compliance_report l = Some rep /\
    15 <= overall_percentage_score rep /\
    ((forall a, In a l -> current_level a = 1%Z /\ max_score a <= 0) ->
     overall_percentage_score rep == 15 /\ overall_maturity_score rep = "Level 1.0").
Proof.
  intros Hne H.
  destruct (report_scores l Hne) as (Hrep & Hscore & Hlabel).
  exists (build_report (scorer_loop l)). split; [exact Hrep|].
  assert (Hne' : map effective_level l <> []) by (destruct l; [congruence | discriminate]).
  split.
  - rewrite Hscore.
    assert (Hlo : 1 <= mean (map effective_level l)).
    { apply mean_lower; [exact Hne'|].
      intros x Hx. apply in_map_iff in Hx. destruct Hx as (a & <- & Ha).
      apply effective_level_range. apply (H a Ha). }
    assert (Hp0 : 0 <= weighted_percentage l).
    { apply weighted_percentage_nonneg. intros a Ha. apply (H a Ha). }
    assert (Hq : 1 # 4 <= mean (map effective_level l) / 4)
      by (apply Qle_shift_div_l; lra).
    unfold py_round. change (pow10 1) with 10%Z. change (Z.to_pos 10) with 10%positive.
    assert (H150 : (150 <= round_half_even
                            ((mean (map effective_level l) / 4 * 100 * (3 # 5)
                              + weighted_percentage l * (2 # 5)) * inject_Z 10))%Z).
    { apply round_half_even_ge. change (inject_Z 150) with 150.
      change (inject_Z 10) with 10. lra. }
    unfold Qle. cbn [Qnum Qden]. lia.
  - intro Hu.
    assert (Hmean : mean (map effective_level l) == 1).
    { apply mean_const; [exact Hne'|].
      intros x Hx. apply in_map_iff in Hx. destruct Hx as (a & <- & Ha).
      destruct (Hu a Ha) as (Hc & _). unfold effective_level. rewrite Hc. reflexivity. }
    assert (Hpct : weighted_percentage l = 0).
    { apply weighted_percentage_unscored. intros a Ha. apply (Hu a Ha). }
    split.
    + rewrite Hscore. rewrite (py_round_comp _ 15 1).
      * reflexivity.
      * rewrite Hmean, Hpct. reflexivity.
    + rewrite Hlabel, (format_fixed_comp 1 _ 1 Hmean). reflexivity.
Qed.

(** *** Saving the selections *)

Lemma apply_selection_keeps (a a' : assessment) (s : selection) :
  apply_selection a s = Some a' ->
  clause a' = clause a /\ maturity_levels a' = maturity_levels a.
Proof.
  unfold apply_selection.
  destruct (sel_maturity_level s) as [m|]; destruct (sel_practices s) as [ticks|];
    try (intro H; injection H as <-; split; reflexivity).
  cbn [with_selected_level maturity_levels].
  destruct (selected_entry m (maturity_levels a)) as [ml|];
    [|intro H; injection H as <-; split; reflexivity].
  destruct (score_practices (practices ml) ticks 0 0) as [[t mx]|]; [|discriminate].
  intro H. injection H as <-. split; reflexivity.
Qed.

Lemma set_nth_length {A : Type} (l : list A) (n : nat) (x : A) :
  List.length (set_nth l n x) = List.length l.
Proof.
  revert n. induction l as [|y l IH]; intros [|n]; cbn [set_nth List.length];
    try reflexivity. rewrite IH. reflexivity.
Qed.

Lemma set_nth_map {A B : Type} (f : A -> B) (l : list A) (n : nat) (x y : A) :
  nth_error l n = Some y -> f x = f y -> map f (set_nth l n x) = map f l.
Proof.
  revert n. induction l as [|z l IH]; intros [|n] Hn Hf; cbn [set_nth map nth_error] in *;
    try discriminate.
  - injection Hn as ->. rewrite Hf. reflexivity.
  - rewrite (IH n Hn Hf). reflexivity.
Qed.

Lemma set_nth_other {A : Type} (l : list A) (n j : nat) (x : A) :
  j <> n -> nth_error (set_nth l n x) j = nth_error l j.
Proof.
  revert n j. induction l as [|y l IH]; intros [|n] [|j] H; cbn [set_nth nth_error];
    try reflexivity; try congruence.
  apply IH. congruence.
Qed.

Lemma set_nth_same {A : Type} (l : list A) (n : nat) (x : A) :
  (n < List.length l)%nat -> nth_error (set_nth l n x) n = Some x.
Proof.
  revert n. induction l as [|y l IH]; intros [|n] H; cbn [set_nth nth_error List.length] in *;
    try lia; try reflexivity.
  apply IH. lia.
Qed.

(** The shape that saving keeps. *)
Lemma save_selections_keeps_shape_aux (l l' : list assessment)
                                    (sels : list (string * selection)) :
  save_selections_update l sels = Some l' ->
  List.length l' = List.length l /\
  map clause l' = map clause l /\
  map maturity_levels l' = map maturity_levels l /\
  (forall j,
     (forall key s i, In (key, s) sels -> int_of_str key = Some i ->
                      py_position (List.length l) i <> Some j) ->
     nth_error l' j = nth_error l j).
Proof.
  revert l. induction sels as [|[key s] sels IH]; intros l H.
  - injection H as <-. repeat split; reflexivity.
  - cbn [save_selections_update] in H.
    destruct (int_of_str key) as [i|] eqn:Ek; [|discriminate H].
    destruct (i <? Z.of_nat (List.length l))%Z eqn:Ei.
    + destruct (py_position (List.length l) i) as [n|] eqn:En; [|discriminate H].
      destruct (nth_error l n) as [a|] eqn:Ea; [|discriminate H].
      destruct (apply_selection a s) as [a'|] eqn:Es; [|discriminate H].
      destruct (apply_selection_keeps a a' s Es) as (Hc & Hm).
      destruct (IH _ H) as (Hlen & Hcl & Hml & Hnth).
      rewrite set_nth_length in Hlen, Hnth.
      rewrite (set_nth_map clause l n a' a Ea Hc) in Hcl.
      rewrite (set_nth_map maturity_levels l n a' a Ea Hm) in Hml.
      repeat split; try assumption.
      intros j Hj. rewrite Hnth.
      * apply set_nth_other. intros ->.
        apply (Hj key s i); [left; reflexivity | exact Ek | exact En].
      * intros key' s' i' Hin Hk. apply (Hj key' s' i'); [right; exact Hin | exact Hk].
    + destruct (IH _ H) as (Hlen & Hcl & Hml & Hnth).
      repeat split; try assumption.
      intros j Hj. apply Hnth. intros key' s' i' Hin Hk.
      apply (Hj key' s' i'); [right; exact Hin | exact Hk].
Qed.

(** X13.  Saving selections changes neither the number of records nor the
    clause and the maturity levels of any record, and it leaves every
    record that no selection key addresses as it was. *)
Theorem save_selections_keeps_shape (l l' : list assessment)
                                    (sels : list (string * selection)) :
  save_selections_update l sels = Some l' ->
  List.length l' = List.length l /\
  map clause l' = map clause l /\
  map maturity_levels l' = map maturity_levels l /\
  (forall j,
     (forall key s i, In (key, s) sels -> int_of_str key = Some i ->
                      py_position (List.length l) i <> Some j) ->
     nth_error l' j = nth_error l j).
Proof.
  apply save_selections_keeps_shape_aux.
Qed.

Lemma py_index_In {A : Type} (l : list A) (i : Z) (x : A) :
  py_index l i = Some x -> In x l.
Proof.
  unfold py_index. destruct (py_position (List.length l) i); [|discriminate].
  apply nth_error_In.
Qed.

(** The sums of the loop over the ticks stay ordered. *)
Lemma score_practices_ordered (ps : list practice) (ticks : list (string * pyval))
                              (t m t' m' : Q) :
  (forall p, In p ps -> 0 <= score p) ->
  0 <= t -> t <= m ->
  score_practices ps ticks t m = Some (t', m') ->
  0 <= t' /\ t' <= m'.
Proof.
  intro Hps. revert t m. induction ticks as [|[key v] ticks IH]; intros t m H0 Hle H.
  - injection H as <- <-. split; assumption.
  - cbn [score_practices] in H.
    destruct (int_of_str key) as [i|]; [|discriminate H].
    destruct (i <? Z.of_nat (List.length ps))%Z; [|apply (IH t m H0 Hle H)].
    destruct (py_index ps i) as [p|] eqn:Ep; [|discriminate H].
    pose proof (Hps p (py_index_In ps i p Ep)) as Hp.
    destruct (py_truthy v); apply (IH _ _) in H; try assumption; lra.
Qed.

(** What the routine reads back from a stored score. *)
Lemma stored_float_read (x : Q) :
  exists y, float_or_zero (get_or_zero (Some (PyFloat x))) = Some y /\ y == x.
Proof.
  cbn [get_or_zero py_truthy]. destruct (Qeq_bool x 0) eqn:E; cbn [negb].
  - exists (inject_Z 0). split; [reflexivity|].
    apply Qeq_bool_iff in E. rewrite E. reflexivity.
  - exists x. split; reflexivity.
Qed.

Lemma stored_score_read (a : assessment) (t m : Q) :
  calculated_score a = Some (stored_score t m) ->
  total_score a == t /\ max_score a == m /\
  (0 < m -> score_percentage a == t / m * 100) /\
  (m <= 0 -> score_percentage a == 0).
Proof.
  intro H. unfold total_score, max_score, score_percentage, scores. rewrite H.
  cbn [stored_score sc_percentage sc_total sc_max].
  destruct (stored_float_read t) as (t' & -> & Ht).
  destruct (stored_float_read m) as (m' & -> & Hm).
  destruct (Qgt_bool m 0) eqn:E.
  - apply Qgt_bool_iff in E.
    destruct (stored_float_read (t / m * 100)) as (p' & -> & Hp).
    cbn [fst snd]. split; [exact Ht|]. split; [exact Hm|].
    split; intro Hx; [exact Hp | lra].
  - apply Qlt_bool_false_iff in E.
    cbn [get_or_zero py_truthy Z.eqb negb float_or_zero py_float fst snd].
    split; [exact Ht|]. split; [exact Hm|].
    split; intro Hx; [lra | reflexivity].
Qed.


Lemma py_index_middle {A : Type} (pre post : list A) (x : A) :
  py_index (pre ++ x :: post) (Z.of_nat (List.length pre)) = Some x.
Proof.
  unfold py_index, py_position.
  assert (E1 : (0 <=? Z.of_nat (List.length pre))%Z = true) by (apply Z.leb_le; lia).
  assert (E2 : (Z.of_nat (List.length pre) <? Z.of_nat (List.length (pre ++ x :: post)))%Z
               = true).
  { apply Z.ltb_lt. rewrite length_app. cbn [List.length]. lia. }
  rewrite E1, E2, Nat2Z.id.
  rewrite nth_error_app2 by lia. rewrite Nat.sub_diag. reflexivity.
Qed.

(** The loop over ticks that come one for each practice, in order: the
    points of the ticked practices and the points of all practices. *)
Lemma score_practices_ticks (ps' : list practice) :
  forall (pre : list practice) (ticks : list (string * pyval)) (t m : Q),
    keys_from (List.length pre) ticks ->
    List.length ticks = List.length ps' ->
    exists t' m',
      score_practices (pre ++ ps') ticks t m = Some (t', m') /\
      t' == t + Qsum (map score (ticked ps' ticks)) /\
      m' == m + Qsum (map score ps').
Proof.
  induction ps' as [|p ps' IH]; intros pre ticks t m Hk Hlen.
  - destruct ticks; [|discriminate Hlen].
    exists t, m. cbn [score_practices ticked map Qsum fold_right].
    split; [reflexivity|]. split; ring.
  - destruct ticks as [|[key v] ticks]; [discriminate Hlen|].
    cbn [keys_from] in Hk. destruct Hk as (Hkey & Hk).
    cbn [List.length] in Hlen. injection Hlen as Hlen.
    cbn [score_practices]. rewrite Hkey.
    assert (E : (Z.of_nat (List.length pre) <? Z.of_nat (List.length (pre ++ p :: ps')))%Z
                = true).
    { apply Z.ltb_lt. rewrite length_app. cbn [List.length]. lia. }
    rewrite E, py_index_middle.
    assert (Happ : (pre ++ p :: ps' = (pre ++ [p]) ++ ps')%list)
      by (rewrite <- app_assoc; reflexivity).
    rewrite Happ.
    assert (Hk' : keys_from (List.length (pre ++ [p])) ticks).
    { rewrite length_app. cbn [List.length]. rewrite Nat.add_1_r. exact Hk. }
    destruct (IH (pre ++ [p])%list ticks
                 (if py_truthy v then t + score p else t) (m + score p) Hk' Hlen)
      as (t' & m' & Hs & Ht & Hm).
    exists t', m'. split; [exact Hs|].
    cbn [ticked map]. unfold Qsum in *.
    destruct (py_truthy v); cbn [map fold_right]; split; lra.
Qed.

(** The record saved for ticks that come one for each practice. *)
Lemma saved_score_share_aux (a : assessment) (s : selection) (n : Z)
                                    (ticks : list (string * pyval)) (ml : maturity_level) :
  sel_maturity_level s = Some (ScInt n) ->
  sel_practices s = Some ticks ->
  selected_entry (ScInt n) (maturity_levels a) = Some ml ->
  keys_from 0 ticks ->
  List.length ticks = List.length (practices ml) ->
  exists a',
    apply_selection a s = Some a' /\
    current_level a' = n /\
    total_score a' == Qsum (map score (ticked (practices ml) ticks)) /\
    max_score a' == Qsum (map score (practices ml)) /\
    (0 < Qsum (map score (practices ml)) ->
     score_percentage a' ==
       Qsum (map score (ticked (practices ml) ticks))
       / Qsum (map score (practices ml)) * 100).
Proof.
  intros Hm Ht Hml Hk Hlen.
  destruct (score_practices_ticks (practices ml) [] ticks 0 0 Hk Hlen)
    as (t & mx & Hs & Rt' & Rm').
  cbn [app] in Hs. rewrite Qplus_0_l in Rt', Rm'.
  unfold apply_selection. rewrite Hm, Ht.
  cbn [with_selected_level maturity_levels pyval_of_scalar]. rewrite Hml, Hs.
  eexists. split; [reflexivity|].
  set (a' := with_calculated_score _ _).
  destruct (stored_score_read a' t mx eq_refl) as (Rt & Rm & Rp & _).
  split; [reflexivity|].
  split; [rewrite Rt; exact Rt'|]. split; [rewrite Rm; exact Rm'|].
  intro Hpos. rewrite Rp by lra. rewrite Rt', Rm'. reflexivity.
Qed.


Lemma ticked_all (ps : list practice) (ticks : list (string * pyval)) :
  List.length ticks = List.length ps ->
  Forall (fun kv => py_truthy (snd kv) = true) ticks ->
  ticked ps ticks = ps.
Proof.
  revert ticks. induction ps as [|p ps IH]; intros [|[key v] ticks] Hlen Hall;
    try discriminate Hlen; [reflexivity|].
  inversion Hall as [|? ? Hv Hall']; subst. cbn [snd] in Hv.
  cbn [ticked]. rewrite Hv. f_equal. apply IH; [|exact Hall'].
  cbn [List.length] in Hlen. lia.
Qed.

Lemma ticked_none (ps : list practice) (ticks : list (string * pyval)) :
  Forall (fun kv => py_truthy (snd kv) = false) ticks ->
  ticked ps ticks = [].
Proof.
  revert ticks. induction ps as [|p ps IH]; intros [|[key v] ticks] Hall;
    try reflexivity.
  inversion Hall as [|? ? Hv Hall']; subst. cbn [snd] in Hv.
  cbn [ticked]. rewrite Hv. apply IH, Hall'.
Qed.

(** X16.  With every practice of the selected level ticked, the report
    reads 100% and takes the selected level as effective level; with none
    ticked it reads 0% and, above level 1, lowers the level by one half. *)
Theorem ticks_decide_effective_level (a : assessment) (s : selection) (n : Z)
                                     (ticks : list (string * pyval)) (ml : maturity_level) :
  sel_maturity_level s = Some (ScInt n) ->
  sel_practices s = Some ticks ->
  selected_entry (ScInt n) (maturity_levels a) = Some ml ->
  keys_from 0 ticks ->
  List.length ticks = List.length (practices ml) ->
  0 < Qsum (map score (practices ml)) ->
  exists a',
    apply_selection a s = Some a' /\
    (Forall (fun kv => py_truthy (snd kv) = true) ticks ->
     score_percentage a' == 100 /\ effective_level a' == inject_Z n) /\
    (Forall (fun kv => py_truthy (snd kv) = false) ticks ->
     score_percentage a' == 0 /\
     ((1 < n)%Z -> effective_level a' == inject_Z n - (1 # 2))).
Proof.
  intros Hm Ht Hml Hk Hlen Hpos.
  destruct (saved_score_share_aux a s n ticks ml Hm Ht Hml Hk Hlen)
    as (a' & Ha & Hc & _ & _ & Hp).
  exists a'. split; [exact Ha|]. specialize (Hp Hpos). split.
  - intro Hall. rewrite (ticked_all _ _ Hlen Hall) in Hp.
    assert (H100 : score_percentage a' == 100) by (rewrite Hp; field; lra).
    split; [exact H100|].
    unfold effective_level. rewrite Hc.
    assert (E50 : Qlt_bool (score_percentage a') 50 = false)
      by (apply Qlt_bool_false_iff; lra).
    assert (E75 : Qlt_bool (score_percentage a') 75 = false)
      by (apply Qlt_bool_false_iff; lra).
    rewrite E50, E75, !andb_false_r. reflexivity.
  - intro Hnone. rewrite (ticked_none _ _ Hnone) in Hp.
    assert (H0 : score_percentage a' == 0).
    { rewrite Hp. cbn [map Qsum fold_right]. field. lra. }
    split; [exact H0|]. intro Hn.
    unfold effective_level. rewrite Hc.
    assert (E1 : (1 <? n)%Z = true) by (apply Z.ltb_lt, Hn).
    assert (E50 : Qlt_bool (score_percentage a') 50 = true)
      by (apply Qlt_bool_iff; lra).
    rewrite E1, E50. cbn [andb].
    assert (H2 : inject_Z 2 <= inject_Z n) by (rewrite <- Zle_Qle; lia).
    change (inject_Z 2) with 2 in H2.
    unfold py_max. q_cases; [reflexivity | lra].
Qed.

(** X17.  The index of a selection is checked against the length of the
    list only from above: a key at or beyond the length is skipped, a
    negative key counts from the end of the list, and a key below minus the
    length raises, so that nothing is saved. *)
Theorem selection_index_bounds (l : list assessment) (key : string) (s : selection)
                               (i : Z) :
  int_of_str key = Some i ->
  ((Z.of_nat (List.length l) <= i)%Z ->
     save_selections_update l [(key, s)] = Some l) /\
  ((i < - Z.of_nat (List.length l))%Z ->
     save_selections_update l [(key, s)] = None) /\
  (forall a a',
     (- Z.of_nat (List.length l) <= i < 0)%Z ->
     nth_error l (Z.to_nat (Z.of_nat (List.length l) + i)) = Some a ->
     apply_selection a s = Some a' ->
     save_selections_update l [(key, s)]
     = Some (set_nth l (Z.to_nat (Z.of_nat (List.length l) + i)) a')).
Proof.
  intro Hk. cbn [save_selections_update]. rewrite Hk. unfold py_position.
  split; [|split].
  - intro H. assert (E : (i <? Z.of_nat (List.length l))%Z = false) by (apply Z.ltb_ge, H).
    rewrite E. reflexivity.
  - intro H.
    assert (E1 : (i <? Z.of_nat (List.length l))%Z = true) by (apply Z.ltb_lt; lia).
    assert (E2 : (0 <=? i)%Z = false) by (apply Z.leb_gt; lia).
    assert (E3 : (- Z.of_nat (List.length l) <=? i)%Z = false) by (apply Z.leb_gt; lia).
    rewrite E1, E2, E3. reflexivity.
  - intros a a' H Ha Hs.
    assert (E1 : (i <? Z.of_nat (List.length l))%Z = true) by (apply Z.ltb_lt; lia).
    assert (E2 : (0 <=? i)%Z = false) by (apply Z.leb_gt; lia).
    assert (E3 : (- Z.of_nat (List.length l) <=? i)%Z = true) by (apply Z.leb_le; lia).
    rewrite E1, E2, E3, Ha, Hs. reflexivity.
Qed.

(** *** The assessments folder *)

Lemma insert_by_time_In (x z : string * Q) (l : list (string * Q)) :
  In z (insert_by_time x l) <-> z = x \/ In z l.
Proof.
  induction l as [|y r IH]; cbn [insert_by_time].
  - cbn [In]. split; intros [H | H]; try contradiction; left; symmetry; exact H.
  - destruct (Qlt_bool (snd x) (snd y)); cbn [In].
    + rewrite IH. split.
      * intros [H | [H | H]]; [right; left; exact H | left; exact H | right; right; exact H].
      * intros [H | [H | H]]; [right; left; exact H | left; exact H | right; right; exact H].
    + split.
      * intros [H | H]; [left; symmetry; exact H | right; exact H].
      * intros [H | H]; [left; symmetry; exact H | right; exact H].
Qed.

Lemma sort_latest_first_In (z : string * Q) (l : list (string * Q)) :
  In z (sort_latest_first l) <-> In z l.
Proof.
  induction l as [|x l IH]; [reflexivity|].
  cbn [sort_latest_first fold_right]. fold (sort_latest_first l).
  rewrite insert_by_time_In, IH. cbn [In]. split.
  - intros [H | H]; [left; symmetry; exact H | right; exact H].
  - intros [H | H]; [left; symmetry; exact H | right; exact H].
Qed.

(** The first element after sorting is one with the latest time. *)
Lemma sort_latest_first_head (l : list (string * Q)) (x : string * Q)
                             (r : list (string * Q)) :
  sort_latest_first l = x :: r -> forall y, In y l -> snd y <= snd x.
Proof.
  revert x r. induction l as [|a l IH]; intros x r H y Hy; [contradiction|].
  cbn [sort_latest_first fold_right] in H. fold (sort_latest_first l) in H.
  destruct (sort_latest_first l) as [|b s] eqn:Es.
  - cbn [insert_by_time] in H. injection H as <- <-.
    assert (Hl : l = []).
    { destruct l as [|c l]; [reflexivity|].
      assert (Hc : In c (sort_latest_first (c :: l)))
        by (apply sort_latest_first_In; left; reflexivity).
      rewrite Es in Hc. contradiction. }
    subst l. destruct Hy as [<- | []]. apply Qle_refl.
  - cbn [insert_by_time] in H.
    assert (Hb : forall z, In z l -> snd z <= snd b) by (apply (IH b s eq_refl)).
    destruct (Qlt_bool (snd a) (snd b)) eqn:E.
    + injection H as <- <-. apply Qlt_bool_iff in E.
      destruct Hy as [<- | Hy]; [lra | apply Hb, Hy].
    + injection H as <- <-. apply Qlt_bool_false_iff in E.
      destruct Hy as [<- | Hy]; [apply Qle_refl|].
      specialize (Hb y Hy). lra.
Qed.

Lemma latest_match_some (test : string -> bool) (folder : option (list (string * Q)))
                        (path : string) :
  latest_match test folder = Some path ->
  exists files file t,
    folder = Some files /\ In (file, t) files /\ test file = true /\
    path = path_join SAVE_FOLDER file /\
    forall file' t', In (file', t') files -> test file' = true -> t' <= t.
Proof.
  unfold latest_match.
  destruct (sort_latest_first (matching_files test folder)) as [|[p t] r] eqn:Es;
    [discriminate|].
  intro H. injection H as ->.
  assert (Hin : In (path, t) (matching_files test folder)).
  { apply sort_latest_first_In. rewrite Es. left. reflexivity. }
  pose proof (sort_latest_first_head _ _ _ Es) as Hmax.
  unfold matching_files in Hin, Hmax. destruct folder as [files|]; [|contradiction].
  apply in_map_iff in Hin. destruct Hin as ([file t0] & Heq & Hf).
  cbn [fst snd] in Heq. injection Heq as Hp Ht. subst t0.
  apply filter_In in Hf. destruct Hf as (Hfile & Htest). cbn [fst] in Htest.
  exists files, file, t. repeat split; try assumption; [symmetry; exact Hp|].
  intros file' t' Hin' Htest'.
  apply (Hmax (path_join SAVE_FOLDER file', t')).
  apply in_map_iff. exists (file', t'). split; [reflexivity|].
  apply filter_In. split; assumption.
Qed.

Lemma latest_match_none (test : string -> bool) (folder : option (list (string * Q))) :
  latest_match test folder = None <->
  forall files file t, folder = Some files -> In (file, t) files -> test file = false.
Proof.
  unfold latest_match. split.
  - destruct (sort_latest_first (matching_files test folder)) as [|[p t0] r] eqn:Es;
      [|discriminate].
    intros _ files file t -> Hin.
    destruct (test file) eqn:Et; [|reflexivity].
    assert (H : In (path_join SAVE_FOLDER file, t)
                   (sort_latest_first (matching_files test (Some files)))).
    { apply sort_latest_first_In. unfold matching_files. apply in_map_iff.
      exists (file, t). split; [reflexivity|]. apply filter_In. split; assumption. }
    rewrite Es in H. contradiction.
  - intro H.
    destruct (sort_latest_first (matching_files test folder)) as [|[p t0] r] eqn:Es;
      [reflexivity|].
    assert (Hin : In (p, t0) (matching_files test folder)).
    { apply sort_latest_first_In. rewrite Es. left. reflexivity. }
    unfold matching_files in Hin. destruct folder as [files|]; [|contradiction].
    apply in_map_iff in Hin. destruct Hin as ([file t] & _ & Hf).
    apply filter_In in Hf. destruct Hf as (Hfile & Htest). cbn [fst] in Htest.
    rewrite (H files file t eq_refl Hfile) in Htest. discriminate Htest.
Qed.

(** X19.  [find_existing_assessment] returns the path of a file of the
    folder that passes its test and has the latest modification time among
    the files that pass it; it returns nothing exactly when the folder does
    not exist or holds no file that passes. *)
Theorem find_existing_assessment_latest (folder : option (list (string * Q)))
                                        (filename : string) :
  (forall path,
     find_existing_assessment folder filename = Some path ->
     exists files file t,
       folder = Some files /\ In (file, t) files /\
       is_assessment_of filename file = true /\
       path = path_join SAVE_FOLDER file /\
       forall file' t', In (file', t') files ->
                        is_assessment_of filename file' = true -> t' <= t) /\
  (find_existing_assessment folder filename = None <->
   forall files file t, folder = Some files -> In (file, t) files ->
                        is_assessment_of filename file = false).
Proof.
  split; [intro path; apply latest_match_some | apply latest_match_none].
Qed.

(** *** Names of the saved files *)

Lemma contains_unfold (sub s : string) :
  contains sub s =
  if String.prefix sub s then true
  else match s with
       | EmptyString => false
       | String _ r => contains sub r
       end.
Proof. destruct s; reflexivity. Qed.

Lemma ends_with_unfold (suffix s : string) :
  ends_with suffix s =
  if String.eqb s suffix then true
  else match s with
       | EmptyString => false
       | String _ r => ends_with suffix r
       end.
Proof. destruct s; reflexivity. Qed.

Lemma prefix_append (p x : string) : String.prefix p (p ++ x) = true.
Proof.
  induction p as [|c p IH]; [destruct x; reflexivity|].
  cbn [append String.prefix]. destruct (ascii_dec c c); [exact IH | congruence].
Qed.

Lemma contains_append (a sub b : string) : contains sub (a ++ sub ++ b) = true.
Proof.
  induction a as [|c a IH].
  - cbn [append]. rewrite contains_unfold, prefix_append. reflexivity.
  - rewrite contains_unfold. cbn [append].
    destruct (String.prefix sub (String c (a ++ sub ++ b))); [reflexivity | exact IH].
Qed.

Lemma ends_with_append (x suffix : string) : ends_with suffix (x ++ suffix) = true.
Proof.
  induction x as [|c x IH].
  - cbn [append]. rewrite ends_with_unfold, String.eqb_refl. reflexivity.
  - rewrite ends_with_unfold. cbn [append].
    destruct (String.eqb (String c (x ++ suffix)) suffix); [reflexivity | exact IH].
Qed.

Lemma append_assoc_3 (a b c : string) : (a ++ b) ++ c = a ++ b ++ c.
Proof.
  induction a as [|x a IH]; [reflexivity|]. cbn [append]. rewrite IH. reflexivity.
Qed.

Lemma assessment_file_name_matches (filename timestamp : string) :
  contains "_compliance_report" (assessment_file_name filename timestamp) = false ->
  is_assessment_of filename (assessment_file_name filename timestamp) = true.
Proof.
  intro H. unfold is_assessment_of. rewrite H.
  assert (He : ends_with ".json" (assessment_file_name filename timestamp) = true).
  { unfold assessment_file_name.
    rewrite <- (append_assoc_3 "_" timestamp ".json"),
      <- (append_assoc_3 (safe_name filename)).
    apply ends_with_append. }
  assert (Hp : String.prefix (safe_name filename ++ "_")
                             (assessment_file_name filename timestamp) = true).
  { unfold assessment_file_name.
    rewrite <- (append_assoc_3 (safe_name filename) "_"). apply prefix_append. }
  rewrite He, Hp. cbn [negb andb]. apply orb_true_r.
Qed.

Lemma report_file_name_facts (filename timestamp : string) :
  ends_with ".json" (report_file_name filename timestamp) = true /\
  contains "_compliance_report" (report_file_name filename timestamp) = true /\
  contains (safe_name filename) (report_file_name filename timestamp) = true.
Proof.
  unfold report_file_name. split; [|split].
  - rewrite <- (append_assoc_3 "_compliance_report_" timestamp ".json"),
      <- (append_assoc_3 (safe_name filename)).
    apply ends_with_append.
  - change ("_compliance_report_" ++ timestamp ++ ".json")
      with ("_compliance_report" ++ ("_" ++ timestamp ++ ".json")).
    apply contains_append.
  - apply (contains_append "" (safe_name filename)).
Qed.

(** X20.  A saved assessment is found again: when the folder holds the file
    that [save_locally] writes for a document, and its name does not hold
    "_compliance_report", [find_existing_assessment] returns a file for
    that document. *)
Theorem saved_assessment_is_found (files : list (string * Q))
                                  (filename timestamp : string) (t : Q) :
  In (assessment_file_name filename timestamp, t) files ->
  contains "_compliance_report" (assessment_file_name filename timestamp) = false ->
  exists path, find_existing_assessment (Some files) filename = Some path.
Proof.
  intros Hin Hc.
  destruct (find_existing_assessment (Some files) filename) as [path|] eqn:E;
    [exists path; reflexivity|].
  pose proof (proj1 (latest_match_none _ _) E files _ t eq_refl Hin) as H.
  rewrite (assessment_file_name_matches filename timestamp Hc) in H.
  discriminate H.
Qed.

(** X21.  A saved compliance report is found again by
    [find_existing_compliance_report] for its document, and it is never
    taken for an assessment: it passes the test of
    [find_existing_assessment] for no document. *)
Theorem saved_report_is_found (files : list (string * Q))
                              (filename timestamp : string) (t : Q) :
  In (report_file_name filename timestamp, t) files ->
  (exists path, find_existing_compliance_report (Some files) filename = Some path) /\
  (forall other, is_assessment_of other (report_file_name filename timestamp) = false).
Proof.
  intro Hin. destruct (report_file_name_facts filename timestamp) as (He & Hc & Hs).
  split.
  - destruct (find_existing_compliance_report (Some files) filename) as [path|] eqn:E;
      [exists path; reflexivity|].
    pose proof (proj1 (latest_match_none _ _) E files _ t eq_refl Hin) as H.
    unfold is_report_of in H. rewrite He, Hc, Hs in H.
    cbn [andb] in H. rewrite orb_true_r in H. discriminate H.
  - intro other. unfold is_assessment_of. rewrite Hc.
    cbn [negb]. rewrite andb_false_r. reflexivity.
Qed.

Lemma is_alnum_not_continuation (c : ascii) : is_alnum c = true -> is_continuation c = false.
Proof.
  unfold is_alnum, is_continuation. cbv zeta.
  destruct (128 <=? nat_of_ascii c)%nat eqn:E; [|reflexivity].
  apply Nat.leb_le in E. intro H.
  repeat (apply orb_true_iff in H; destruct H as [H | H]);
    apply andb_true_iff in H; destruct H as (_ & H); apply Nat.leb_le in H; lia.
Qed.

(** X22.  The safe name built from a file name holds only letters, digits
    and underscores, is no longer than the name, and is left as it is when
    made safe again. *)
Theorem sanitize_safe (s : string) :
  all_chars is_safe_char (sanitize s) = true /\
  (String.length (sanitize s) <= String.length s)%nat /\
  sanitize (sanitize s) = sanitize s.
Proof.
  induction s as [|c s (IH1 & IH2 & IH3)]; [repeat split; constructor|].
  cbn [sanitize]. destruct (is_alnum c) eqn:Ea; [|destruct (is_continuation c) eqn:Ec].
  - cbn [all_chars String.length sanitize]. unfold is_safe_char at 1.
    rewrite Ea, IH1, IH3. cbn [orb andb]. repeat split. lia.
  - cbn [String.length]. repeat split; [exact IH1 | lia | exact IH3].
  - cbn [all_chars String.length sanitize]. rewrite IH1, IH3.
    repeat split. lia.
Qed.

(** *** The report route *)

(** X23.  The report route answers with a report exactly when the request
    names a document, an assessment file for it is found and holds at least
    one record, and the scan of the records raises nothing; the report is
    then the one of [generate_compliance_report] on the records of the file.
    The route never answers "Failed to generate compliance report". *)
Theorem report_route_answers (folder : option (list (string * Q)))
                             (filename : option string) :
  (forall rep,
     generate_compliance_report_route folder filename = Ok rep <->
     exists name path assessments,
       filename = Some name /\ name <> "" /\
       find_existing_assessment folder name = Some path /\ path <> "" /\
       load_assessment path = Some assessments /\ assessments <> [] /\
       forallb scan_record assessments = true /\
       generate_compliance_report assessments = Some rep) /\
  generate_compliance_report_route folder filename
  <> Error 500 "Failed to generate compliance report".
Proof.
  unfold generate_compliance_report_route. split.
  - intro rep. split.
    + destruct filename as [name|]; [|discriminate].
      destruct (String.eqb name "") eqn:En; [discriminate|].
      destruct (find_existing_assessment folder name) as [path|] eqn:Ef; [|discriminate].
      destruct (String.eqb path "") eqn:Ep; [discriminate|].
      destruct (load_assessment path) as [[|a l]|] eqn:El; try discriminate.
      destruct (forallb scan_record (a :: l)) eqn:Es; [|discriminate].
      destruct (generate_compliance_report (a :: l)) as [r|] eqn:Eg; [|discriminate].
      intro H. injection H as <-.
      apply String.eqb_neq in En. apply String.eqb_neq in Ep.
      exists name, path, (a :: l). repeat split; try assumption. discriminate.
    + intros (name & path & l & -> & Hn & Hf & Hp & Hl & Hne & Hs & Hg).
      apply String.eqb_neq in Hn. apply String.eqb_neq in Hp.
      rewrite Hn, Hf, Hp, Hl. destruct l as [|a l]; [congruence|].
      rewrite Hs, Hg. reflexivity.
  - destruct filename as [name|]; [|discriminate].
    destruct (String.eqb name ""); [discriminate|].
    destruct (find_existing_assessment folder name) as [path|]; [|discriminate].
    destruct (String.eqb path ""); [discriminate|].
    destruct (load_assessment path) as [[|a l]|]; try discriminate.
    destruct (forallb scan_record (a :: l)); [|discriminate].
    cbn [generate_compliance_report]. discriminate.
Qed.

(** X24.  The route is stricter than the routine: when a record of the file
    holds a [calculated_score] whose [max] is present and no number, the
    route answers with the exception of its scan, although
    [generate_compliance_report] returns a report for the same records. *)
Theorem report_route_raises_on_malformed_max (folder : option (list (string * Q)))
                                             (name path : string)
                                             (assessments : list assessment)
                                             (a : assessment) (d : score_dict) (v : pyval) :
  name <> "" ->
  find_existing_assessment folder name = Some path -> path <> "" ->
  load_assessment path = Some assessments ->
  In a assessments ->
  calculated_score a = Some d -> sc_max d = Some v -> py_is_number v = false ->
  generate_compliance_report_route folder (Some name) = Raised /\
  exists rep, generate_compliance_report assessments = Some rep.
Proof.
  intros Hn Hf Hp Hl Ha Hd Hv Hnum.
  assert (Hscan : scan_record a = false).
  { unfold scan_record. rewrite Hd, Hv. cbn [get_default_zero].
    destruct v; try discriminate Hnum; reflexivity. }
  assert (Hall : forallb scan_record assessments = false).
  { destruct (forallb scan_record assessments) eqn:E; [|reflexivity].
    rewrite forallb_forall in E. rewrite (E a Ha) in Hscan. discriminate Hscan. }
  unfold generate_compliance_report_route.
  apply String.eqb_neq in Hn. apply String.eqb_neq in Hp.
  rewrite Hn, Hf, Hp, Hl.
  destruct assessments as [|b l]; [contradiction|].
  rewrite Hall. split; [reflexivity|].
  eexists. reflexivity.
Qed.

(** *** Saving and then reporting *)

Lemma scan_record_stored (a : assessment) (t m : Q) :
  calculated_score a = Some (stored_score t m) -> scan_record a = true.
Proof.
  intro H. unfold scan_record. rewrite H.
  cbn [stored_score sc_max sc_percentage sc_total get_default_zero py_number].
  destruct (Qgt_bool m 0); reflexivity.
Qed.

Lemma apply_selection_scan (a a' : assessment) (s : selection) :
  apply_selection a s = Some a' -> scan_record a = true -> scan_record a' = true.
Proof.
  unfold apply_selection.
  destruct (sel_maturity_level s) as [m|]; destruct (sel_practices s) as [ticks|];
    try (intros H Hs; injection H as <-; exact Hs).
  cbn [with_selected_level maturity_levels].
  destruct (selected_entry m (maturity_levels a)) as [ml|];
    [|intros H Hs; injection H as <-; exact Hs].
  destruct (score_practices (practices ml) ticks 0 0) as [[t mx]|]; [|discriminate].
  intros H _. injection H as <-. apply (scan_record_stored _ t mx). reflexivity.
Qed.

Lemma forallb_set_nth {A : Type} (f : A -> bool) (l : list A) (n : nat) (x : A) :
  forallb f l = true -> f x = true -> forallb f (set_nth l n x) = true.
Proof.
  revert n. induction l as [|y l IH]; intros [|n] Hl Hx; cbn [set_nth forallb] in *;
    try reflexivity; apply andb_true_iff in Hl; destruct Hl as (Hy & Hl);
    apply andb_true_iff; split; try assumption.
  apply IH; assumption.
Qed.

Lemma save_selections_scan (l l' : list assessment) (sels : list (string * selection)) :
  save_selections_update l sels = Some l' ->
  forallb scan_record l = true -> forallb scan_record l' = true.
Proof.
  revert l. induction sels as [|[key s] sels IH]; intros l H Hl.
  - injection H as <-. exact Hl.
  - cbn [save_selections_update] in H.
    destruct (int_of_str key) as [i|]; [|discriminate H].
    destruct (i <? Z.of_nat (List.length l))%Z; [|apply (IH l H Hl)].
    destruct (py_position (List.length l) i) as [n|]; [|discriminate H].
    destruct (nth_error l n) as [a|] eqn:Ea; [|discriminate H].
    destruct (apply_selection a s) as [a'|] eqn:Es; [|discriminate H].
    apply (IH _ H). apply forallb_set_nth; [exact Hl|].
    apply (apply_selection_scan a a' s Es).
    rewrite forallb_forall in Hl. apply Hl. apply (nth_error_In _ _ Ea).
Qed.

(** X25.  What [save_selections] writes, the report route accepts: when the
    records of a file pass the scan of the route, so do the records after
    the selections were saved, and the route then answers with the report
    of the saved records. *)
Theorem saved_file_is_reported (folder : option (list (string * Q)))
                               (name path : string) (l l' : list assessment)
                               (sels : list (string * selection)) :
  save_selections_update l sels = Some l' ->
  forallb scan_record l = true -> l <> [] ->
  name <> "" -> find_existing_assessment folder name = Some path -> path <> "" ->
  load_assessment path = Some l' ->
  forallb scan_record l' = true /\
  exists rep,
    generate_compliance_report l' = Some rep /\
    generate_compliance_report_route folder (Some name) = Ok rep.
Proof.
  intros Hsave Hscan Hne Hn Hf Hp Hl.
  pose proof (save_selections_scan l l' sels Hsave Hscan) as Hscan'.
  split; [exact Hscan'|].
  assert (Hne' : l' <> []).
  { destruct (save_selections_keeps_shape_aux l l' sels Hsave) as (Hlen & _).
    destruct l' as [|b l']; [|discriminate].
    destruct l; [congruence | discriminate Hlen]. }
  unfold generate_compliance_report_route.
  apply String.eqb_neq in Hn. apply String.eqb_neq in Hp.
  rewrite Hn, Hf, Hp, Hl. destruct l' as [|b l']; [congruence|].
  rewrite Hscan'. eexists. split; reflexivity.
Qed.

(** X18.  Applying a selection to the record it produced changes nothing. *)
Theorem apply_selection_idempotent (a a' : assessment) (s : selection) :
  apply_selection a s = Some a' -> apply_selection a' s = Some a'.
Proof.
  unfold apply_selection.
  destruct (sel_maturity_level s) as [m|]; destruct (sel_practices s) as [ticks|].
  - cbn [with_selected_level maturity_levels].
    destruct (selected_entry m (maturity_levels a)) as [ml|] eqn:Em.
    + destruct (score_practices (practices ml) ticks 0 0) as [[t mx]|] eqn:Es;
        [|discriminate].
      intro H. injection H as <-.
      cbn [with_calculated_score with_selected_level maturity_levels].
      rewrite Em, Es. reflexivity.
    + intro H. injection H as <-.
      cbn [with_selected_level maturity_levels]. rewrite Em. reflexivity.
  - intro H. injection H as <-. reflexivity.
  - intro H. injection H as <-. reflexivity.
  - intro H. injection H as <-. reflexivity.
Qed.

End Scorer.

(** ** The properties on the sample records *)

(** The examples of the specification. *)
Example unselected_record_is_critical :
  effective_level reject_strings record_unselected == 1 /\
  gap reject_strings record_unselected == 3 /\
  bucket_of reject_strings record_unselected = Critical /\
  gi_priority (gap_info_of reject_strings record_unselected) = "Critical".
Proof. repeat split. Qed.

Example level_3_record_is_minor :
  effective_level reject_strings record_level_3 == 3 /\
  gap reject_strings record_level_3 == 1 /\
  bucket_of reject_strings record_level_3 = Minor.
Proof. repeat split. Qed.

Example level_2_record_is_critical :
  effective_level reject_strings record_level_2 == 3 # 2 /\
  gap reject_strings record_level_2 == 5 # 2 /\
  bucket_of reject_strings record_level_2 = Critical.
Proof. repeat split. Qed.

Example sample_report_scores :
  option_map (fun rep => (overall_maturity_score rep, overall_percentage_score rep,
                          total_clauses rep))
             (generate_compliance_report reject_strings sample_records)
  = Some ("Level 2.6", 684 # 10, 4%Z).
Proof. vm_compute. reflexivity. Qed.

(** The step of the roadmap to level 4 of a record at selected level 2 is
    numbered 3 although it is the second step. *)
Example level_2_roadmap_numbers :
  step_numbers (roadmap_to_level_4_of record_level_2) = [(1, 3); (3, 4)]%Z.
Proof. reflexivity. Qed.

(** C1 fails as stated: for the empty list there is no report that could
    hold the defaults. *)
Lemma empty_list_has_no_report :
  ~ exists rep,
      generate_compliance_report reject_strings [] = Some rep /\
      overall_maturity_score rep = "Level 1.0" /\
      overall_percentage_score rep == 0 /\
      total_clauses rep = 0%Z.
Proof. intros (rep & H & _). discriminate H. Qed.

(** C2 fails as stated: the record at selected level 2 with 30% of the
    practices has effective level 1.5 and an entry for level 2, and yet no
    step for target 2; its steps are not the steps to 2, 3, 4 numbered
    1, 2, 3. *)
Lemma roadmap_not_gated_by_effective_level :
  effective_level reject_strings record_level_2 == 3 # 2 /\
  effective_level reject_strings record_level_2 < 2 /\
  has_level 2 record_level_2 = true /\
  ~ (exists s, In s (roadmap_to_level_4 (gi_gap_details
                       (gap_info_of reject_strings record_level_2)))
               /\ rs_target_level s = 2%Z) /\
  step_numbers (roadmap_to_level_4 (gi_gap_details
                  (gap_info_of reject_strings record_level_2)))
    <> [(1, 2); (2, 3); (3, 4)]%Z.
Proof.
  split; [reflexivity|]. split; [reflexivity|]. split; [reflexivity|]. split.
  - intros (s & Hs & Ht). simpl in Hs.
    destruct Hs as [<- | [<- | []]]; discriminate Ht.
  - discriminate.
Qed.

Lemma effective_level_cases_witness :
  ((1 < current_level record_level_2)%Z /\
   score_percentage reject_strings record_level_2 < 50 /\
   effective_level reject_strings record_level_2
   == Qmax 1 (inject_Z (current_level record_level_2) - (1 # 2))) /\
  ((1 < current_level record_level_3_partial)%Z /\
   50 <= score_percentage reject_strings record_level_3_partial /\
   score_percentage reject_strings record_level_3_partial < 75 /\
   effective_level reject_strings record_level_3_partial
   == inject_Z (current_level record_level_3_partial) - (1 # 4)) /\
  (py_is_number (selected_maturity_level record_malformed) = false /\
   current_level record_malformed = 1%Z) /\
  (score_malformed reject_strings record_malformed /\
   score_percentage reject_strings record_malformed = 0).
Proof.
  split; [|split; [|split]].
  - split; [reflexivity|]. split; [reflexivity|].
    apply (proj1 (effective_level_cases reject_strings record_level_2)); reflexivity.
  - split; [reflexivity|]. split; [discriminate|]. split; [reflexivity|].
    apply (proj1 (proj2 (effective_level_cases reject_strings record_level_3_partial)));
      [reflexivity | discriminate | reflexivity].
  - split; [reflexivity|].
    apply (proj1 (proj2 (proj2 (proj2
             (effective_level_cases reject_strings record_malformed))))).
    reflexivity.
  - assert (H : score_malformed reject_strings record_malformed).
    { right. right. left. reflexivity. }
    split; [exact H|].
    apply (proj2 (proj2 (proj2 (proj2
             (effective_level_cases reject_strings record_malformed))))).
    exact H.
Defined.

Lemma gap_classification_witness :
  5 # 2 <= gap reject_strings record_level_2 /\
  critical_gaps (scorer_step reject_strings initial_state record_level_2)
  = [gap_info_of reject_strings record_level_2] /\
  gi_impact (gap_info_of reject_strings record_level_2) = "High" /\
  gi_priority (gap_info_of reject_strings record_level_2) = "Critical".
Proof.
  assert (H : 5 # 2 <= gap reject_strings record_level_2) by discriminate.
  split; [exact H|].
  destruct (proj1 (proj2 (gap_classification reject_strings initial_state record_level_2)) H)
    as (Hc & _ & _ & Hi & Hp).
  split; [exact Hc|]. split; [exact Hi | exact Hp].
Defined.


Lemma sample_records_well_formed : Forall (well_formed reject_strings) sample_records.
Proof.
  repeat constructor; try (eexists; split; [reflexivity | lia]);
    try discriminate; try (intros _; reflexivity); intro H; discriminate H.
Defined.

Lemma overall_percentage_score_range_witness :
  sample_records <> [] /\
  Forall (well_formed reject_strings) sample_records /\
  exists rep,
    generate_compliance_report reject_strings sample_records = Some rep /\
    0 <= overall_percentage_score rep /\ overall_percentage_score rep <= 100.
Proof.
  assert (H : sample_records <> []) by discriminate.
  split; [exact H|]. split; [exact sample_records_well_formed|].
  apply (overall_percentage_score_range reject_strings sample_records H
           sample_records_well_formed).
Defined.

Lemma recommendations_order_timeline_witness :
  generate_compliance_report reject_strings sample_records
  = Some (build_report (scorer_loop reject_strings sample_records)) /\
  map rec_clause
      (recommendations (build_report
                          (scorer_loop reject_strings sample_records)))
  = ["7.3"; "6.1"; "4.4"; "8.1"] /\
  map rec_timeline
      (recommendations (build_report
                          (scorer_loop reject_strings sample_records)))
  = ["6-12 months"; "3-6 months"; "1-3 months"; "1-3 months"] /\
  List.length (recommendations (build_report
                                  (scorer_loop reject_strings sample_records)))
  = List.length sample_records.
Proof.
  assert (H : generate_compliance_report reject_strings sample_records
              = Some (build_report
                        (scorer_loop reject_strings sample_records)))
    by reflexivity.
  split; [exact H|].
  destruct (recommendations_order_timeline reject_strings sample_records _ H)
    as (_ & Hc & Hl & _).
  split; [|split; [reflexivity | exact Hl]].
  rewrite Hc. reflexivity.
Defined.

Lemma no_action_items_at_level_4_witness :
  current_level record_level_4 = 4%Z /\
  75 <= score_percentage reject_strings record_level_4 /\
  rec_action_items (recommendation_of (gap_info_of reject_strings record_level_4)) = [].
Proof.
  assert (H1 : current_level record_level_4 = 4%Z) by reflexivity.
  assert (H2 : 75 <= score_percentage reject_strings record_level_4) by discriminate.
  split; [exact H1|]. split; [exact H2|].
  apply (no_action_items_at_level_4 reject_strings record_level_4 H1 H2).
Defined.

Lemma roadmap_to_level_4_steps_witness :
  (current_level record_unselected < 2)%Z /\
  has_level 2 record_unselected = true /\
  has_level 3 record_unselected = true /\
  has_level 4 record_unselected = true /\
  step_numbers (roadmap_to_level_4_of record_unselected) = [(1, 2); (2, 3); (3, 4)]%Z.
Proof.
  repeat (split; [reflexivity|]).
  apply (proj1 (proj2 (proj2 (proj2 (proj2
           (roadmap_to_level_4_steps reject_strings record_unselected))))));
    reflexivity.
Defined.

(** ** The further properties on the samples *)

Arguments Ok {A} body.
Arguments Error {A} status message.
Arguments Raised {A}.

Lemma report_counts_every_record_witness :
  sample_records <> [] /\
  exists rep,
    generate_compliance_report reject_strings sample_records = Some rep /\
    total_clauses rep = 4%Z /\
    rp_assessed_clauses rep = map (gap_info_of reject_strings) sample_records.
Proof.
  assert (H : sample_records <> []) by discriminate.
  split; [exact H|].
  destruct (report_counts_every_record reject_strings sample_records H)
    as (rep & Hrep & Hn & Ha & _).
  exists rep. split; [exact Hrep|]. split; [exact Hn | exact Ha].
Defined.

Lemma effective_level_bounds_witness :
  (1 <= current_level record_level_2)%Z /\
  1 <= effective_level reject_strings record_level_2.
Proof.
  assert (H : (1 <= current_level record_level_2)%Z) by discriminate.
  split; [exact H|].
  apply (proj2 (proj2 (effective_level_bounds reject_strings record_level_2))), H.
Defined.

Lemma effective_level_monotone_witness :
  (current_level record_level_2 <= current_level record_level_3)%Z /\
  score_percentage reject_strings record_level_2
  <= score_percentage reject_strings record_level_3 /\
  effective_level reject_strings record_level_2
  <= effective_level reject_strings record_level_3.
Proof.
  assert (H1 : (current_level record_level_2 <= current_level record_level_3)%Z)
    by discriminate.
  assert (H2 : score_percentage reject_strings record_level_2
               <= score_percentage reject_strings record_level_3) by discriminate.
  split; [exact H1|]. split; [exact H2|].
  apply (effective_level_monotone reject_strings _ _ H1 H2).
Defined.

Lemma roadmap_phases_nest_witness :
  generate_compliance_report reject_strings sample_records
  = Some (build_report (scorer_loop reject_strings sample_records)) /\
  ph_clauses (phase_1 (rp_roadmap_to_level_4
                         (build_report (scorer_loop reject_strings sample_records))))
  = ["7.3"; "6.1"] /\
  ph_clauses (phase_3 (rp_roadmap_to_level_4
                         (build_report (scorer_loop reject_strings sample_records))))
  = ["7.3"; "6.1"; "4.4"; "8.1"].
Proof.
  assert (H : generate_compliance_report reject_strings sample_records
              = Some (build_report (scorer_loop reject_strings sample_records)))
    by reflexivity.
  split; [exact H|].
  destruct (roadmap_phases_nest reject_strings sample_records _ H)
    as (H1 & _ & _ & H3 & _).
  split; [rewrite H1; reflexivity | rewrite H3; reflexivity].
Defined.

Lemma priority_matrix_entries_witness :
  generate_compliance_report reject_strings sample_records
  = Some (build_report (scorer_loop reject_strings sample_records)) /\
  quick_wins (rp_priority_matrix
                (build_report (scorer_loop reject_strings sample_records)))
  = ["4.4 - Quality Management System"; "8.1 - Operational Planning"].
Proof.
  assert (H : generate_compliance_report reject_strings sample_records
              = Some (build_report (scorer_loop reject_strings sample_records)))
    by reflexivity.
  split; [exact H|].
  destruct (priority_matrix_entries reject_strings sample_records _ H) as (H1 & _).
  rewrite H1. reflexivity.
Defined.

Lemma clause_number_and_name_witness :
  has_space (clause record_level_2) = true /\
  clause record_level_2 = clause_num record_level_2 ++ " " ++ clause_name record_level_2 /\
  clause_num record_level_2 = "7.3".
Proof.
  assert (H : has_space (clause record_level_2) = true) by reflexivity.
  split; [exact H|].
  split; [apply (proj1 (clause_number_and_name record_level_2) H) | reflexivity].
Defined.

Lemma level_data_last_match_witness :
  level_data 3 sample_levels = Some (sample_level 3) /\
  exists pre post,
    sample_levels = (pre ++ sample_level 3 :: post)%list /\
    py_eq_int (level (sample_level 3)) 3 = true.
Proof.
  assert (H : level_data 3 sample_levels = Some (sample_level 3)) by reflexivity.
  split; [exact H|].
  destruct (proj2 (level_data_last_match 3 sample_levels) _ H)
    as (pre & post & H1 & H2 & _).
  exists pre, post. split; [exact H1 | exact H2].
Defined.


Lemma full_marks_hypothesis :
  forall a, In a [record_level_4; record_level_4] ->
    current_level a = 4%Z /\ 75 <= score_percentage reject_strings a /\
    0 < max_score reject_strings a /\
    total_score reject_strings a == max_score reject_strings a.
Proof.
  intros a [<- | [<- | []]]; (split; [reflexivity|]); (split; [discriminate|]);
    split; reflexivity.
Defined.

Lemma full_marks_score_100_witness :
  [record_level_4; record_level_4] <> [] /\
  exists rep,
    generate_compliance_report reject_strings [record_level_4; record_level_4] = Some rep /\
    overall_percentage_score rep == 100 /\
    overall_maturity_score rep = "Level 4.0".
Proof.
  assert (H : [record_level_4; record_level_4] <> []) by discriminate.
  split; [exact H|].
  apply (full_marks_score_100 reject_strings _ H full_marks_hypothesis).
Defined.

Lemma score_floor_hypothesis :
  forall a, In a [record_unselected; record_level_2] ->
    (1 <= current_level a)%Z /\ 0 <= total_score reject_strings a.
Proof.
  intros a [<- | [<- | []]]; split; discriminate.
Defined.

Lemma score_floor_15_witness :
  [record_unselected; record_level_2] <> [] /\
  exists rep,
    generate_compliance_report reject_strings [record_unselected; record_level_2]
    = Some rep /\
    15 <= overall_percentage_score rep.
Proof.
  assert (H : [record_unselected; record_level_2] <> []) by discriminate.
  split; [exact H|].
  destruct (score_floor_15 reject_strings _ H score_floor_hypothesis)
    as (rep & Hrep & Hlo & _).
  exists rep. split; [exact Hrep | exact Hlo].
Defined.

Lemma save_selections_keeps_shape_witness :
  save_selections_update decimal_int
    [record_level_2; record_unselected] [("1", sample_selection)]
  = Some [record_level_2; record_saved] /\
  List.length [record_level_2; record_saved] = 2%nat /\
  nth_error [record_level_2; record_saved] 0 = Some record_level_2.
Proof.
  assert (H : save_selections_update decimal_int
                [record_level_2; record_unselected] [("1", sample_selection)]
              = Some [record_level_2; record_saved]) by reflexivity.
  split; [exact H|].
  destruct (save_selections_keeps_shape decimal_int _ _ _ H) as (Hlen & _ & _ & Hnth).
  split; [exact Hlen|].
  apply (Hnth 0%nat). intros key s i [Heq | []] Hk.
  injection Heq as <- <-. injection Hk as <-. discriminate.
Defined.

Lemma sample_scores_nonneg :
  forall p, In p (practices (sample_level 3)) -> 0 <= score p.
Proof. intros p [<- | [<- | []]]; discriminate. Defined.


Lemma sample_keys : keys_from decimal_int 0 sample_ticks_first.
Proof. repeat split. Defined.


Lemma sample_keys_all : keys_from decimal_int 0 sample_ticks_all.
Proof. repeat split. Defined.

Lemma ticks_decide_effective_level_witness :
  0 < Qsum (map score (practices (sample_level 3))) /\
  exists a',
    apply_selection decimal_int record_unselected sample_selection = Some a' /\
    score_percentage reject_strings a' == 100 /\
    effective_level reject_strings a' == 3.
Proof.
  assert (Hpos : 0 < Qsum (map score (practices (sample_level 3)))) by reflexivity.
  split; [exact Hpos|].
  destruct (ticks_decide_effective_level reject_strings decimal_int
              record_unselected sample_selection 3 sample_ticks_all (sample_level 3)
              eq_refl eq_refl eq_refl sample_keys_all eq_refl Hpos)
    as (a' & Ha & Hall & _).
  exists a'. split; [exact Ha|].
  apply Hall. repeat constructor.
Defined.

Lemma selection_index_bounds_witness :
  decimal_int "-1" = Some (-1)%Z /\
  save_selections_update decimal_int
    [record_level_2; record_unselected] [("-1", sample_selection)]
  = Some [record_level_2; record_saved] /\
  save_selections_update decimal_int
    [record_level_2; record_unselected] [("-3", sample_selection)]
  = None.
Proof.
  assert (H : decimal_int "-1" = Some (-1)%Z) by reflexivity.
  split; [exact H|]. split.
  - apply (proj2 (proj2 (selection_index_bounds decimal_int
                           [record_level_2; record_unselected] "-1" sample_selection
                           (-1) H)) record_unselected record_saved);
      [split; [discriminate | reflexivity] | reflexivity | reflexivity].
  - apply (proj1 (proj2 (selection_index_bounds decimal_int
                           [record_level_2; record_unselected] "-3" sample_selection
                           (-3) eq_refl))).
    reflexivity.
Defined.

Lemma find_existing_assessment_latest_witness :
  find_existing_assessment sample_splitext_base sample_upper sample_re_search
    sample_path_join (Some sample_folder) "AS9100D.pdf"
  = Some "assessments/AS9100D_2024-01-03_09-30-00.json" /\
  exists files file t,
    Some sample_folder = Some files /\ In (file, t) files /\
    "assessments/AS9100D_2024-01-03_09-30-00.json" = sample_path_join SAVE_FOLDER file.
Proof.
  assert (H : find_existing_assessment sample_splitext_base sample_upper sample_re_search
                sample_path_join (Some sample_folder) "AS9100D.pdf"
              = Some "assessments/AS9100D_2024-01-03_09-30-00.json") by reflexivity.
  split; [exact H|].
  destruct (proj1 (find_existing_assessment_latest sample_splitext_base sample_upper
                     sample_re_search sample_path_join (Some sample_folder) "AS9100D.pdf")
                  _ H)
    as (files & file & t & H1 & H2 & _ & H4 & _).
  exists files, file, t. split; [exact H1|]. split; [exact H2 | exact H4].
Defined.

Lemma saved_assessment_is_found_witness :
  In (assessment_file_name sample_splitext_base "AS9100D.pdf" "2024-01-03_09-30-00", 200)
     sample_folder /\
  contains "_compliance_report"
    (assessment_file_name sample_splitext_base "AS9100D.pdf" "2024-01-03_09-30-00") = false /\
  exists path,
    find_existing_assessment sample_splitext_base sample_upper sample_re_search
      sample_path_join (Some sample_folder) "AS9100D.pdf" = Some path.
Proof.
  assert (H1 : In (assessment_file_name sample_splitext_base "AS9100D.pdf"
                     "2024-01-03_09-30-00", 200) sample_folder)
    by (right; right; left; reflexivity).
  assert (H2 : contains "_compliance_report"
                 (assessment_file_name sample_splitext_base "AS9100D.pdf"
                    "2024-01-03_09-30-00") = false) by reflexivity.
  split; [exact H1|]. split; [exact H2|].
  apply (saved_assessment_is_found sample_splitext_base sample_upper sample_re_search
           sample_path_join sample_folder "AS9100D.pdf" "2024-01-03_09-30-00" 200 H1 H2).
Defined.

Lemma saved_report_is_found_witness :
  In (report_file_name sample_splitext_base "AS9100D.pdf" "2024-01-02_10-00-00", 300)
     sample_folder /\
  exists path,
    find_existing_compliance_report sample_splitext_base sample_upper sample_re_search
      sample_path_join (Some sample_folder) "AS9100D.pdf" = Some path.
Proof.
  assert (H1 : In (report_file_name sample_splitext_base "AS9100D.pdf"
                     "2024-01-02_10-00-00", 300) sample_folder)
    by (right; left; reflexivity).
  split; [exact H1|].
  apply (proj1 (saved_report_is_found sample_splitext_base sample_upper sample_re_search
                  sample_path_join sample_folder "AS9100D.pdf" "2024-01-02_10-00-00"
                  300 H1)).
Defined.

Lemma report_route_raises_on_malformed_max_witness :
  generate_compliance_report_route reject_strings sample_splitext_base sample_upper
    sample_re_search sample_path_join sample_load (Some sample_folder) (Some "AS9100D.pdf")
  = Raised /\
  exists rep,
    generate_compliance_report reject_strings [record_level_3; record_text_max] = Some rep.
Proof.
  apply (report_route_raises_on_malformed_max reject_strings sample_splitext_base
           sample_upper sample_re_search sample_path_join sample_load
           (Some sample_folder) "AS9100D.pdf"
           "assessments/AS9100D_2024-01-03_09-30-00.json"
           [record_level_3; record_text_max] record_text_max
           {| sc_percentage := Some (PyFloat 50);
              sc_total := Some (PyFloat 1);
              sc_max := Some (PyStr "two") |}
           (PyStr "two")).
  - discriminate.
  - reflexivity.
  - discriminate.
  - reflexivity.
  - right. left. reflexivity.
  - reflexivity.
  - reflexivity.
  - reflexivity.
Defined.

Lemma apply_selection_idempotent_witness :
  apply_selection decimal_int record_unselected sample_selection = Some record_saved /\
  apply_selection decimal_int record_saved sample_selection = Some record_saved.
Proof.
  assert (H : apply_selection decimal_int record_unselected sample_selection
              = Some record_saved) by reflexivity.
  split; [exact H|].
  apply (apply_selection_idempotent decimal_int _ _ _ H).
Defined.

Lemma saved_file_is_reported_witness :
  save_selections_update decimal_int
    [record_level_2; record_unselected] [("1", sample_selection)]
  = Some [record_level_2; record_saved] /\
  exists rep,
    generate_compliance_report reject_strings [record_level_2; record_saved] = Some rep /\
    generate_compliance_report_route reject_strings sample_splitext_base sample_upper
      sample_re_search sample_path_join (fun _ => Some [record_level_2; record_saved])
      (Some sample_folder) (Some "AS9100D.pdf")
    = Ok rep.
Proof.
  assert (H : save_selections_update decimal_int
                [record_level_2; record_unselected] [("1", sample_selection)]
              = Some [record_level_2; record_saved]) by reflexivity.
  split; [exact H|].
  assert (Hne : [record_level_2; record_unselected] <> []) by discriminate.
  assert (Hn : "AS9100D.pdf" <> "") by discriminate.
  assert (Hp : "assessments/AS9100D_2024-01-03_09-30-00.json" <> "") by discriminate.
  apply (proj2 (saved_file_is_reported reject_strings decimal_int sample_splitext_base
                  sample_upper sample_re_search sample_path_join
                  (fun _ => Some [record_level_2; record_saved])
                  (Some sample_folder) "AS9100D.pdf"
                  "assessments/AS9100D_2024-01-03_09-30-00.json"
                  [record_level_2; record_unselected] [record_level_2; record_saved]
                  [("1", sample_selection)]
                  H eq_refl Hne Hn eq_refl Hp eq_refl)).
Defined.
